(** * AppGantt: the activity table and the Gantt renderer of [gantt_prototype.py]

    A shallow embedding of class [GanttPrototype]: the pandas DataFrame
    [self.df] is the list of its rows in table order, a cell is a dynamically
    typed Python value, and every method is a computation over the instance
    and what it prints and writes, which either returns or raises. *)

From Stdlib Require Import ZArith Lia Ascii.
From stdpp Require Import base decidable option list strings gmap sorting.

Open Scope Z_scope.

(** ** Cell values

    The values the program itself puts into cells and passes around: Python
    integers (unbounded), [str], and [pandas.Timestamp], held as the number of
    nanoseconds since 1970-01-01T00:00. [==] between two such values is
    structural: an [int] never equals a [str] or a [Timestamp]. Floats,
    [None] and the missing values NaN and NaT are not among them: a table
    that holds one, as an update with such a value or a date string that
    parses to NaT would make it, is outside what is stated here. *)

Inductive value : Type :=
| VInt (n : Z)
| VStr (s : string)
| VTimestamp (t : Z).

#[global] Instance value_eq_dec : EqDecision value.
Proof. solve_decision. Defined.

(** ** Rows and columns *)

(** One row of the DataFrame built by [initialize_dataframe]. The row labels
    (the pandas index) are left out: no method reads them ([concat] is called
    with [ignore_index], [.loc] with a boolean mask, [to_excel] with
    [index=False]). *)
Record Row : Type := mkRow {
  ID : value;
  Nome_Attività : value;
  Data_Inizio : value;
  Data_Fine : value;
  Persona_Riferimento : value;
  Stato : value
}.

#[global] Instance Row_eq_dec : EqDecision Row.
Proof. solve_decision. Defined.

Abbreviation DataFrame := (list Row).

(** [self.df.columns] *)
Definition columns : list string :=
  ["ID"; "Nome_Attività"; "Data_Inizio"; "Data_Fine"; "Persona_Riferimento"; "Stato"].

(** [initialize_dataframe]: no rows, the six columns above. *)
Definition initialize_dataframe : DataFrame := [].

(** [row[key] = v] for a column name [key]; any other name leaves the row. *)
Definition set_column (key : string) (v : value) (r : Row) : Row :=
  if decide (key = "ID") then
    mkRow v (Nome_Attività r) (Data_Inizio r) (Data_Fine r) (Persona_Riferimento r) (Stato r)
  else if decide (key = "Nome_Attività") then
    mkRow (ID r) v (Data_Inizio r) (Data_Fine r) (Persona_Riferimento r) (Stato r)
  else if decide (key = "Data_Inizio") then
    mkRow (ID r) (Nome_Attività r) v (Data_Fine r) (Persona_Riferimento r) (Stato r)
  else if decide (key = "Data_Fine") then
    mkRow (ID r) (Nome_Attività r) (Data_Inizio r) v (Persona_Riferimento r) (Stato r)
  else if decide (key = "Persona_Riferimento") then
    mkRow (ID r) (Nome_Attività r) (Data_Inizio r) (Data_Fine r) v (Stato r)
  else if decide (key = "Stato") then
    mkRow (ID r) (Nome_Attività r) (Data_Inizio r) (Data_Fine r) (Persona_Riferimento r) v
  else r.

(** [row[key]] *)
Definition get_column (key : string) (r : Row) : option value :=
  if decide (key = "ID") then Some (ID r)
  else if decide (key = "Nome_Attività") then Some (Nome_Attività r)
  else if decide (key = "Data_Inizio") then Some (Data_Inizio r)
  else if decide (key = "Data_Fine") then Some (Data_Fine r)
  else if decide (key = "Persona_Riferimento") then Some (Persona_Riferimento r)
  else if decide (key = "Stato") then Some (Stato r)
  else None.

(** [self.df['ID']], top to bottom. *)
Definition id_column (d : DataFrame) : list value := ID <$> d.

(** [self.df.loc[self.df['ID'] == id, key] = v]: every row whose ID cell equals
    [id] gets [v] in column [key]. *)
Definition loc_assign (id : value) (key : string) (v : value) (d : DataFrame) : DataFrame :=
  (λ r, if decide (ID r = id) then set_column key v r else r) <$> d.

(** ** Time *)

Definition ns_per_day : Z := 86400 * 1000000000.

(** [timedelta(days=n)] in nanoseconds. *)
Definition timedelta_days (n : Z) : Z := n * ns_per_day.

(** pandas keeps a Timestamp, and the Timedelta between two of them, as a
    64-bit count of nanoseconds, the least value being kept for NaT:
    [Timestamp.min.value] and [Timestamp.max.value]. Arithmetic whose result
    falls outside raises (OutOfBoundsDatetime, OverflowError). *)
Definition Timestamp_min : Z := - (2 ^ 63 - 1).
Definition Timestamp_max : Z := 2 ^ 63 - 1.

Definition in_bounds (t : Z) : bool := (Timestamp_min <=? t) && (t <=? Timestamp_max).

(** Days from 1970-01-01 to the civil date y-m-d (proleptic Gregorian). *)
Definition days_from_civil (y m d : Z) : Z :=
  let y' := if m <=? 2 then y - 1 else y in
  let era := y' / 400 in
  let yoe := y' - era * 400 in
  let mp := (m + 9) mod 12 in
  let doy := (153 * mp + 2) / 5 + d - 1 in
  let doe := yoe * 365 + yoe / 4 - yoe / 100 + doy in
  era * 146097 + doe - 719468.

(** The Timestamp of midnight on y-m-d. *)
Definition midnight (y m d : Z) : Z := days_from_civil y m d * ns_per_day.

(** ** What the chart holds

    matplotlib is outside the program; a chart is the record of what
    [generate_gantt] asks it to draw. *)

(** [ax.barh(y, width, left=..., color=...)] *)
Record Bar : Type := mkBar {
  bar_y : value;
  bar_width : Z;
  bar_left : value;
  bar_color : string
}.

(** [ax.text(x, y, s)] *)
Record Text : Type := mkText {
  text_x : value;
  text_y : value;
  text_s : value
}.

Record Chart : Type := mkChart {
  title : string;
  xlabel : string;
  ylabel : string;
  bars : list Bar;
  texts : list Text;
  legend : list (string * string);
  xlim : value * value
}.

(** The libraries and the disk under the program, as far as it depends on
    them: which of the calls that can fail return. [ax.barh] refuses some
    names (the empty string, for one, on which it raises StopIteration);
    [plt.savefig] refuses some paths (one in a directory that is not there,
    for one) and some figures; [os.makedirs] and [pd.ExcelWriter] refuse
    some paths. A call that is refused raises. The program is modelled for
    any such host. *)
Record Host : Type := mkHost {
  (* ax.barh(y, ...) returns for the name y *)
  barh_ok : value → bool;
  (* the figure with these bars and labels is laid out and written at the path *)
  savefig_ok : string → list Bar → list Text → bool;
  (* os.makedirs(path, exist_ok=True) returns *)
  makedirs_ok : string → bool;
  (* pd.ExcelWriter(path, engine='openpyxl') opens the file and saves it *)
  excel_writer_ok : string → bool
}.

(** ** The instance and its surroundings *)

(** The lines the methods print. *)
Inductive message : Type :=
| ErroreNonTrovata (id : value)     (* Errore: Attività con ID {id} non trovata. *)
| AvvisoCampo (key : string)        (* Avviso: Campo '{key}' non presente nel DataFrame. *)
| NessunaAttività                   (* Nessuna attività da visualizzare nel diagramma di Gantt. *)
| GanttSalvato (output_file : string)  (* Diagramma di Gantt salvato in: {output_file} *)
| FileSalvato (file_path : string).    (* File salvato: {file_path} *)

Record World : Type := mkWorld {
  df : DataFrame;               (* self.df *)
  stdout : list message;        (* printed so far, oldest first *)
  fs : gmap string Chart        (* image files written by savefig, by path *)
}.


(** [GanttPrototype()] with no file, in a fresh process. *)
Definition GanttPrototype : World := mkWorld initialize_dataframe [] ∅.

(** A call returns a value or raises; either way the instance is left as the
    call made it. *)
Inductive result (A : Type) : Type :=
| Ok (a : A)
| Raise.
Arguments Ok {A} a.
Arguments Raise {A}.

Definition Py (A : Type) : Type := World → result A * World.

#[global] Instance Py_ret : MRet Py := λ A a w, (Ok a, w).

#[global] Instance Py_bind : MBind Py := λ A B k m w,
  match m w with
  | (Ok a, w') => k a w'
  | (Raise, w') => (Raise, w')
  end.

(** An exception leaves the call. *)
Definition raise {A} : Py A := λ w, (Raise, w).

(** A step that raises where [o] is [None]. *)
Definition lift {A} (o : option A) : Py A :=
  λ w, match o with Some a => (Ok a, w) | None => (Raise, w) end.

(** Reading and assigning [self.df]. *)
Definition get_df : Py DataFrame := λ w, (Ok (df w), w).
Definition set_df (d : DataFrame) : Py unit := λ w, (Ok (), mkWorld d (stdout w) (fs w)).

(** [print(...)] *)
Definition print (m : message) : Py unit :=
  λ w, (Ok (), mkWorld (df w) (stdout w ++ [m]) (fs w)).

(** [plt.tight_layout()] and [plt.savefig(output_file, ...)]: the file at
    that path now holds the chart, unless the host refuses; the error is not
    caught and nothing is written. *)
Definition savefig (host : Host) (output_file : string) (c : Chart) : Py unit :=
  λ w, if savefig_ok host output_file (bars c) (texts c)
       then (Ok (), mkWorld (df w) (stdout w) (<[output_file := c]> (fs w)))
       else (Raise, w).

(** [ax.barh(y, width, left=..., ...)] *)
Definition barh (host : Host) (b : Bar) : Py Bar :=
  λ w, if barh_ok host (bar_y b) then (Ok b, w) else (Raise, w).

(** [os.makedirs(path, exist_ok=True)] *)
Definition makedirs (host : Host) (path : string) : Py unit :=
  λ w, if makedirs_ok host path then (Ok (), w) else (Raise, w).

(** ** Series reductions *)

(** The integers of a column, when every cell is an [int]. *)
Fixpoint ints_of (l : list value) : option (list Z) :=
  match l with
  | [] => Some []
  | VInt n :: l' => cons n <$> ints_of l'
  | _ :: _ => None
  end.

(** The instants of a column, when every cell is a [Timestamp]. *)
Fixpoint timestamps_of (l : list value) : option (list Z) :=
  match l with
  | [] => Some []
  | VTimestamp t :: l' => cons t <$> timestamps_of l'
  | _ :: _ => None
  end.

(** The strings of a column, when every cell is a [str]. *)
Fixpoint strs_of (l : list value) : option (list string) :=
  match l with
  | [] => Some []
  | VStr s :: l' => cons s <$> strs_of l'
  | _ :: _ => None
  end.

Definition Zmax_list (x : Z) (l : list Z) : Z := fold_right Z.max x l.
Definition Zmin_list (x : Z) (l : list Z) : Z := fold_right Z.min x l.

Definition str_max (a b : string) : string := if String.leb a b then b else a.

(** [Series.max()] on a non-empty column: the largest cell when the cells are
    of one type; comparing cells of different types raises. *)
Definition series_max (l : list value) : Py value :=
  match ints_of l, timestamps_of l, strs_of l with
  | Some (n :: ns), _, _ => mret (VInt (Zmax_list n ns))
  | _, Some (t :: ts), _ => mret (VTimestamp (Zmax_list t ts))
  | _, _, Some (s :: ss) => mret (VStr (fold_right str_max s ss))
  | _, _, _ => raise
  end.

(** [Series.min()], likewise. *)
Definition series_min (l : list value) : Py value :=
  match ints_of l, timestamps_of l, strs_of l with
  | Some (n :: ns), _, _ => mret (VInt (Zmin_list n ns))
  | _, Some (t :: ts), _ => mret (VTimestamp (Zmin_list t ts))
  | _, _, Some (s :: ss) => mret (VStr (fold_right (λ a b, if String.leb a b then a else b) s ss))
  | _, _, _ => raise
  end.

(** [v + 1]: defined on an [int]; a [str] or a [Timestamp] plus an [int]
    raises TypeError. *)
Definition plus_one (v : value) : Py value :=
  match v with
  | VInt n => mret (VInt (n + 1))
  | _ => raise
  end.

(** [v + timedelta(days=n)] (a negative [n] for [-]): defined on a
    [Timestamp], where the result is one; an [int] or a [str] with a
    timedelta raises TypeError. *)
Definition plus_days (v : value) (n : Z) : Py value :=
  match v with
  | VTimestamp t =>
      if in_bounds (t + timedelta_days n) then mret (VTimestamp (t + timedelta_days n))
      else raise
  | _ => raise
  end.

(** ** The activity store *)

(** [kwargs]: the keyword arguments in the order given ([kwargs.items()]
    iterates in that order); Python admits each keyword once. *)
Abbreviation kwargs_t := (list (string * value)).

Section Store.

(** [pd.to_datetime] on a [str]: the parsed instant, or [None] where it
    raises. The parser belongs to pandas; the store is modelled for any. A
    string on which the parser returns NaT instead (the empty string) has no
    counterpart here: what is stated about date strings is stated about
    those that parse to a Timestamp or are rejected. *)
Variable to_datetime : string → option Z.

(** [if isinstance(d, str): d = pd.to_datetime(d)]: what [d] becomes, or
    [None] where the parser raises. *)
Definition to_datetime_if_str (d : value) : option value :=
  match d with
  | VStr s => VTimestamp <$> to_datetime s
  | _ => Some d
  end.

(** [add_activity(nome, data_inizio, data_fine, persona, stato)] *)
Definition add_activity (nome data_inizio data_fine persona stato : value) : Py value :=
  data_inizio ← lift (to_datetime_if_str data_inizio);
  data_fine ← lift (to_datetime_if_str data_fine);
  d ← get_df;
  new_id ← (if decide (length d = 0%nat) then mret (VInt 1)
            else m ← series_max (id_column d); plus_one m);
  set_df (d ++ [mkRow new_id nome data_inizio data_fine persona stato]);;
  mret new_id.

(** The default of the [stato] argument. *)
Definition stato_default : value := VStr "In corso".

(** The id [add_activity] gives out over a column of integer ids: one more
    than the largest, or 1 over the empty column. *)
Definition next_id (ids : list Z) : Z :=
  match ids with
  | [] => 1
  | n :: ns => Zmax_list n ns + 1
  end.


(** [kwargs[key]], if [key in kwargs]. *)
Fixpoint kw_get (key : string) (kwargs : kwargs_t) : option value :=
  match kwargs with
  | [] => None
  | (k, v) :: rest => if decide (k = key) then Some v else kw_get key rest
  end.

(** [kwargs[key] = v] for a key already present: the entry keeps its place. *)
Fixpoint kw_set (key : string) (v : value) (kwargs : kwargs_t) : kwargs_t :=
  match kwargs with
  | [] => []
  | (k, v') :: rest =>
      if decide (k = key) then (k, v) :: rest else (k, v') :: kw_set key v rest
  end.

(** [if key in kwargs and isinstance(kwargs[key], str):
       kwargs[key] = pd.to_datetime(kwargs[key])]: what [kwargs] becomes, or
    [None] where the parser raises. *)
Definition normalize_kwarg (key : string) (kwargs : kwargs_t) : option kwargs_t :=
  match kw_get key kwargs with
  | Some (VStr s) => (λ t, kw_set key (VTimestamp t) kwargs) <$> to_datetime s
  | _ => Some kwargs
  end.

(** The loop [for key, value in kwargs.items()] of [update_activity]. The
    mask [self.df['ID'] == id] is taken anew at every field. *)
Fixpoint update_fields (id : value) (kwargs : kwargs_t) : Py unit :=
  match kwargs with
  | [] => mret ()
  | (key, v) :: rest =>
      (if decide (key ∈ columns) then
         d ← get_df; set_df (loc_assign id key v d)
       else
         print (AvvisoCampo key));;
      update_fields id rest
  end.

(** The row a record becomes when every field of [kwargs] is written to it
    in turn. *)
Definition apply_fields (kwargs : kwargs_t) (r : Row) : Row :=
  foldl (λ r kv, set_column kv.1 kv.2 r) r kwargs.

(** [update_activity(id, **kwargs)] *)
Definition update_activity (id : value) (kwargs : kwargs_t) : Py bool :=
  d ← get_df;
  if decide (id ∉ id_column d) then
    print (ErroreNonTrovata id);; mret false
  else
    kwargs ← lift (normalize_kwarg "Data_Inizio" kwargs);
    kwargs ← lift (normalize_kwarg "Data_Fine" kwargs);
    update_fields id kwargs;;
    mret true.

(** [delete_activity(id)] *)
Definition delete_activity (id : value) : Py bool :=
  d ← get_df;
  if decide (id ∉ id_column d) then
    print (ErroreNonTrovata id);; mret false
  else
    set_df (filter (λ r, ID r ≠ id) d);;
    mret true.

End Store.

(** ** The chart renderer *)

(** The dict [colori_stati], in its order. *)
Definition colori_stati : list (string * string) :=
  [("Non iniziato", "lightgrey"); ("In corso", "lightblue"); ("Completato", "lightgreen");
   ("In ritardo", "salmon"); ("In pausa", "yellow")].

Fixpoint dict_get (key : string) (dict : list (string * string)) (default : string) : string :=
  match dict with
  | [] => default
  | (k, c) :: rest => if decide (k = key) then c else dict_get key rest default
  end.

(** [colori_stati.get(task['Stato'], 'lightgrey')]: a cell that is not a
    [str] is a key the dict does not have. *)
Definition colore (stato : value) : string :=
  match stato with
  | VStr s => dict_get s colori_stati "lightgrey"
  | _ => "lightgrey"
  end.

(** [a <= b] between cells of one type. *)
Definition value_leb (a b : value) : bool :=
  match a, b with
  | VInt x, VInt y => x <=? y
  | VTimestamp x, VTimestamp y => x <=? y
  | VStr x, VStr y => String.leb x y
  | _, _ => false
  end.

(** The cells of a column can be ordered: they are all of one type. *)
Definition comparable (l : list value) : bool :=
  bool_decide (is_Some (ints_of l)) || bool_decide (is_Some (timestamps_of l))
  || bool_decide (is_Some (strs_of l)).

(** A row put into rows already in order of [Data_Inizio], before the first
    row that does not start earlier. *)
Fixpoint insert_row (r : Row) (l : DataFrame) : DataFrame :=
  match l with
  | [] => [r]
  | r' :: l' =>
      if value_leb (Data_Inizio r) (Data_Inizio r') then r :: l
      else r' :: insert_row r l'
  end.

(** [df.sort_values('Data_Inizio')]: the rows in ascending order of the
    column; cells of different types cannot be compared and the sort raises.
    Rows with equal cells keep their order here; pandas promises no order
    among them, and nothing below depends on it. *)
Definition sort_values_Data_Inizio (d : DataFrame) : Py DataFrame :=
  if comparable (Data_Inizio <$> d) then mret (foldr insert_row [] d) else raise.

(** [(end_date - start_date).days]: whole days, rounded down, between two
    [Timestamp]s, where their difference is a Timedelta. Between cells of
    any other types the subtraction raises, or yields an [int], which has no
    [days]. *)
Definition days_between (end_date start_date : value) : Py Z :=
  match end_date, start_date with
  | VTimestamp e, VTimestamp s =>
      if in_bounds (e - s) then mret ((e - s) / ns_per_day) else raise
  | _, _ => raise
  end.

Section Renderer.

Variable host : Host.

(** The body of [for i, task in df_filtered.iterrows()]: one bar and one
    label per row. *)
Fixpoint draw_tasks (d : DataFrame) : Py (list Bar * list Text) :=
  match d with
  | [] => mret ([], [])
  | task :: rest =>
      let start_date := Data_Inizio task in
      let end_date := Data_Fine task in
      duration ← days_between end_date start_date;
      let color := colore (Stato task) in
      bar ← barh host (mkBar (Nome_Attività task) duration start_date color);
      x ← plus_days end_date 1;
      let text := mkText x (Nome_Attività task) (Persona_Riferimento task) in
      '(bs, ts) ← draw_tasks rest;
      mret (bar :: bs, text :: ts)
  end.

(** Lines 136-141: the rows to draw and the title suffix. [if filter_person]
    tests truthiness: [None] and the empty string both take the [else]. *)
Definition filter_by_person (filter_person : option string) (d : DataFrame) : DataFrame * string :=
  match filter_person with
  | Some p =>
      if decide (p = "") then (d, "")
      else (filter (λ r, Persona_Riferimento r = VStr p) d, " - " +:+ p)
  | None => (d, "")
  end.

(** [generate_gantt(output_file, filter_person)] *)
Definition generate_gantt (output_file : string) (filter_person : option string)
  : Py (option string) :=
  d ← get_df;
  let '(df_filtered, title_suffix) := filter_by_person filter_person d in
  if decide (length df_filtered = 0%nat) then
    print NessunaAttività;; mret None
  else
    df_filtered ← sort_values_Data_Inizio df_filtered;
    '(bs, ts) ← draw_tasks df_filtered;
    lo ← (m ← series_min (Data_Inizio <$> df_filtered); plus_days m (-3));
    hi ← (m ← series_max (Data_Fine <$> df_filtered); plus_days m 15);
    savefig host output_file
      (mkChart ("Diagramma di Gantt" +:+ title_suffix) "Data" "Attività"
         bs ts colori_stati (lo, hi));;
    print (GanttSalvato output_file);;
    mret (Some output_file).

End Renderer.

(** ** A date parser for the examples

    The docstrings give the string format of dates as 'YYYY-MM-DD'. On such
    a string [pd.to_datetime] yields midnight of that day; [parse_iso_date]
    is that much of it and rejects every other string. It instantiates
    [to_datetime] in the examples; the theorems hold for any parser. *)

Definition digit (c : Ascii.ascii) : option Z :=
  let n := Z.of_nat (Ascii.nat_of_ascii c) in
  if (48 <=? n) && (n <=? 57) then Some (n - 48) else None.

Definition is_leap (y : Z) : bool :=
  ((y mod 4 =? 0) && negb (y mod 100 =? 0)) || (y mod 400 =? 0).

Definition days_in_month (y m : Z) : Z :=
  if m =? 2 then (if is_leap y then 29 else 28)
  else if (m =? 4) || (m =? 6) || (m =? 9) || (m =? 11) then 30
  else 31.

Definition parse_iso_date (s : string) : option Z :=
  match s with
  | String y1 (String y2 (String y3 (String y4 (String "-"%char
      (String m1 (String m2 (String "-"%char (String d1 (String d2 EmptyString))))))))) =>
      y1 ← digit y1; y2 ← digit y2; y3 ← digit y3; y4 ← digit y4;
      m1 ← digit m1; m2 ← digit m2; d1 ← digit d1; d2 ← digit d2;
      let y := 1000 * y1 + 100 * y2 + 10 * y3 + y4 in
      let m := 10 * m1 + m2 in
      let d := 10 * d1 + d2 in
      if (1 <=? m) && (m <=? 12) && (1 <=? d) && (d <=? days_in_month y m)
      then Some (midnight y m d) else None
  | _ => None
  end.

(** Running a call on an instance. *)
Definition run {A} (m : Py A) (w : World) : result A * World := m w.
Definition exec {A} (m : Py A) (w : World) : World := (m w).2.

(** The five activities of the script's [__main__]. *)
Definition esempio : World :=
  exec (add_activity parse_iso_date (VStr "Sviluppo frontend") (VStr "2024-05-01")
          (VStr "2024-05-15") (VStr "Marco") (VStr "In corso");;
        add_activity parse_iso_date (VStr "Sviluppo backend") (VStr "2024-05-10")
          (VStr "2024-05-30") (VStr "Laura") (VStr "Non iniziato");;
        add_activity parse_iso_date (VStr "Testing") (VStr "2024-05-25")
          (VStr "2024-06-05") (VStr "Marco") (VStr "Non iniziato");;
        add_activity parse_iso_date (VStr "Documentazione") (VStr "2024-06-01")
          (VStr "2024-06-10") (VStr "Giulia") (VStr "Non iniziato");;
        add_activity parse_iso_date (VStr "Deployment") (VStr "2024-06-10")
          (VStr "2024-06-15") (VStr "Laura") (VStr "Non iniziato"))
    GanttPrototype.

(** ** Persons *)

(** [Series.unique()]: the distinct cells in the order in which they first
    appear; [seen] holds the cells met so far. *)
Fixpoint unique_from (seen l : list value) : list value :=
  match l with
  | [] => []
  | x :: l' =>
      if decide (x ∈ seen) then unique_from seen l'
      else x :: unique_from (x :: seen) l'
  end.

Definition series_unique (l : list value) : list value := unique_from [] l.

(** [get_unique_persons()] *)
Definition get_unique_persons : Py (list value) :=
  d ← get_df;
  mret (series_unique (Persona_Riferimento <$> d)).

(** [get_activities_by_person(person)] *)
Definition get_activities_by_person (person : value) : Py DataFrame :=
  d ← get_df;
  mret (filter (λ r, Persona_Riferimento r = person) d).

(** ** Reading a chart against the rows it draws *)

(** Row [r1] starts no later than row [r2]. *)
Definition starts_before (r1 r2 : Row) : Prop :=
  ∃ s1 s2, Data_Inizio r1 = VTimestamp s1 ∧ Data_Inizio r2 = VTimestamp s2 ∧ s1 ≤ s2.

(** [b] is the bar of row [r]: at the activity's name, from the start date,
    as many whole days wide as lie between start and end, in the colour of
    the status. *)
Definition bar_for (r : Row) (b : Bar) : Prop :=
  ∃ s e, Data_Inizio r = VTimestamp s ∧ Data_Fine r = VTimestamp e
    ∧ b = mkBar (Nome_Attività r) ((e - s) / ns_per_day) (VTimestamp s) (colore (Stato r)).

(** [t] is the label of row [r]: the person, one day past the end date. *)
Definition text_for (r : Row) (t : Text) : Prop :=
  ∃ e, Data_Fine r = VTimestamp e
    ∧ t = mkText (VTimestamp (e + timedelta_days 1)) (Nome_Attività r) (Persona_Riferimento r).

(** Both dates of the row are Timestamps. *)
Definition has_dates (r : Row) : Prop :=
  (∃ s, Data_Inizio r = VTimestamp s) ∧ (∃ e, Data_Fine r = VTimestamp e).

(** Row [r] goes through the drawing loop: both dates are Timestamps, the
    time between them and the day after the end can be computed, and
    [ax.barh] takes the name. *)
Definition drawable (host : Host) (r : Row) : Prop :=
  ∃ s e, Data_Inizio r = VTimestamp s ∧ Data_Fine r = VTimestamp e
    ∧ in_bounds (e - s) = true ∧ in_bounds (e + timedelta_days 1) = true
    ∧ barh_ok host (Nome_Attività r) = true.

(** The two ends of the axis can be computed for the rows: three days
    before a start and fifteen days after an end are still Timestamps. *)
Definition axis_in_bounds (rows : DataFrame) : Prop :=
  (∀ s, VTimestamp s ∈ Data_Inizio <$> rows → in_bounds (s - timedelta_days 3) = true)
  ∧ (∀ e, VTimestamp e ∈ Data_Fine <$> rows → in_bounds (e + timedelta_days 15) = true).

(** [plt.savefig] takes, at [path], the figure that shows the rows: their
    bars and labels, in whatever order. *)
Definition savefig_takes (host : Host) (path : string) (rows : DataFrame) : Prop :=
  ∀ sorted bs ts,
    sorted ≡ₚ rows → Forall2 bar_for sorted bs → Forall2 text_for sorted ts →
    savefig_ok host path bs ts = true.

(** What [generate_gantt] computes between the filter and [plt.savefig]:
    the bars, the labels and the two ends of the x axis for the rows it was
    left with. *)
Definition layout (host : Host) (rows : DataFrame)
    : Py (list Bar * list Text * (value * value)) :=
  df_filtered ← sort_values_Data_Inizio rows;
  '(bs, ts) ← draw_tasks host df_filtered;
  lo ← (m ← series_min (Data_Inizio <$> df_filtered); plus_days m (-3));
  hi ← (m ← series_max (Data_Fine <$> df_filtered); plus_days m 15);
  mret (bs, ts, (lo, hi)).

(** A computation that neither reads nor changes the world. *)
Definition pure {A} (m : Py A) : Prop := ∃ r, ∀ w, m w = (r, w).

(** ** The page ([app.py])

    Streamlit runs the script top to bottom on every interaction; the
    widgets hand it the values the user entered. What follows is what the
    script does with them. The message a branch shows with [st.success] or
    [st.error] is what the step returns. *)

Inductive st_message : Type :=
| SuccessAggiunta (nome : string)    (* Attività '{nome}' aggiunta con successo! *)
| ErrorDataFine                      (* La data di fine deve essere successiva alla data di inizio. *)
| ErrorObbligatori                   (* Nome attività e persona di riferimento sono campi obbligatori. *)
| SuccessEliminata (id : value)      (* Attività con ID {id} eliminata con successo! *)
| ErrorEliminare (id : value).       (* Impossibile eliminare l'attività con ID {id}. *)

(** [pd.to_datetime(d)] on a [datetime.date], given as its day number from
    1970-01-01: midnight of that day. *)
Definition to_datetime_date (day : Z) : Z := day * ns_per_day.

(** [s.replace(' ', '_')] *)
Fixpoint replace_spaces (s : string) : string :=
  match s with
  | EmptyString => EmptyString
  | String c s' =>
      String (if decide (c = " "%char) then "_"%char else c) (replace_spaces s')
  end.

(** [update_gantt_chart()], for the value of [st.session_state.current_filter]. *)
Definition update_gantt_chart (host : Host) (current_filter : option string) : Py string :=
  makedirs host "gantt_charts";;
  match current_filter with
  | Some p =>
      if decide (p = "") then
        generate_gantt host "gantt_charts/gantt_completo.png" None;;
        mret "gantt_charts/gantt_completo.png"
      else
        let chart_path := "gantt_charts/gantt_" +:+ replace_spaces p +:+ ".png" in
        generate_gantt host chart_path (Some p);;
        mret chart_path
  | None =>
      generate_gantt host "gantt_charts/gantt_completo.png" None;;
      mret "gantt_charts/gantt_completo.png"
  end.

(** Lines 129-132: the filter for the entry picked in "Filtra per Persona". *)
Definition select_filter (selected_person : string) : option string :=
  if decide (selected_person = "Tutte") then None else Some selected_person.

Section Page.

Variable to_datetime : string → option Z.

(** The body of [if submitted:] in the form "add_activity_form". The two
    dates come from [st.date_input] as dates. *)
Definition add_activity_form (nome_attivita : string) (data_inizio data_fine : Z)
    (persona stato : string) : Py st_message :=
  if bool_decide (nome_attivita ≠ "") && bool_decide (persona ≠ "") then
    let data_inizio_dt := to_datetime_date data_inizio in
    let data_fine_dt := to_datetime_date data_fine in
    if data_fine_dt <=? data_inizio_dt then
      mret ErrorDataFine
    else
      add_activity to_datetime (VStr nome_attivita) (VTimestamp data_inizio_dt)
        (VTimestamp data_fine_dt) (VStr persona) (VStr stato);;
      mret (SuccessAggiunta nome_attivita)
  else
    mret ErrorObbligatori.

(** The body of [if delete_submitted:] in the form "delete_activity_form". *)
Definition delete_activity_form (id_to_delete : value) : Py st_message :=
  deleted ← delete_activity id_to_delete;
  if deleted : bool then mret (SuccessEliminata id_to_delete)
  else mret (ErrorEliminare id_to_delete).

End Page.

(** A record as the add form makes it: an integer id, a name and a person
    that are non-empty strings, a status string, and two midnights with the
    end on a later day than the start. *)
Definition entered_by_form (r : Row) : Prop :=
  ∃ (n : Z) (nome persona stato : string) (giorno_inizio giorno_fine : Z),
    r = mkRow (VInt n) (VStr nome) (VTimestamp (to_datetime_date giorno_inizio))
          (VTimestamp (to_datetime_date giorno_fine)) (VStr persona) (VStr stato)
    ∧ nome ≠ "" ∧ persona ≠ "" ∧ giorno_inizio < giorno_fine.

(** The dates [st.date_input] can hand over lie within ten years of the
    current date; the range below holds them for any current date from 1910
    to 2090. *)
Definition date_input_range (day : Z) : Prop :=
  days_from_civil 1900 1 1 ≤ day ≤ days_from_civil 2100 12 31.

(** Both dates of the row are midnights of days in that range. *)
Definition dates_in_range (r : Row) : Prop :=
  ∃ giorno_inizio giorno_fine,
    Data_Inizio r = VTimestamp (to_datetime_date giorno_inizio)
    ∧ Data_Fine r = VTimestamp (to_datetime_date giorno_fine)
    ∧ date_input_range giorno_inizio ∧ date_input_range giorno_fine.

(** A session of the page: two activities entered through the form. *)
Definition sessione : World :=
  exec (add_activity_form parse_iso_date "Sviluppo frontend"
          (days_from_civil 2024 5 1) (days_from_civil 2024 5 15) "Marco Rossi" "In corso";;
        add_activity_form parse_iso_date "Sviluppo backend"
          (days_from_civil 2024 5 10) (days_from_civil 2024 5 30) "Laura" "Non iniziato")
    GanttPrototype.

(** ** The spreadsheet ([save_to_excel] and [__init__])

    pandas and openpyxl are modelled as far as their documentation fixes
    what a cell becomes on the way to the file and back; a function returns
    [None] where the model stops. *)

(** A worksheet, by columns: the header cell and the cells below it. The
    three kinds of cell an XLSX file holds for this program (number, date
    and time, text) are the three kinds of [value]. *)
Abbreviation Sheet := (list (string * list value)).

(** A workbook: its sheets by name, in order. *)
Abbreviation Workbook := (list (string * Sheet)).

(** The XLSX files on the disk. *)
Abbreviation Workbooks := (gmap string Workbook).

(** A cell of a frame read from a file: a value, or NaN for a missing one. *)
Inductive cell : Type :=
| Val (v : value)
| NaN.

#[global] Instance cell_eq_dec : EqDecision cell.
Proof. solve_decision. Defined.

(** A DataFrame as [pd.read_excel] returns it, by columns. *)
Abbreviation Frame := (list (string * list cell)).































(** ** A host for the examples *)

(** The part of a path before its last slash. *)
Fixpoint has_slash (s : string) : bool :=
  match s with
  | EmptyString => false
  | String c s' => bool_decide (c = "/"%char) || has_slash s'
  end.

Fixpoint directory (s : string) : string :=
  match s with
  | EmptyString => EmptyString
  | String c s' => if has_slash s' then String c (directory s') else EmptyString
  end.

(** A host on which [ax.barh] refuses the empty name and nothing else, and
    files can be written into the working directory and into gantt_charts,
    the one directory the page makes, and nowhere else. *)
Definition host_esempio : Host :=
  mkHost (λ y, bool_decide (y ≠ VStr ""))
         (λ path _ _, bool_decide (directory path ∈ [""; "gantt_charts"]))
         (λ _, true)
         (λ path, bool_decide (path ≠ "" ∧ directory path = "")).

(** Unfolding the plumbing of [Py]. *)
Ltac py_unfold :=
  unfold run, exec, mbind, mret, Py_bind, Py_ret, raise, lift, get_df, set_df, print,
    savefig, barh, makedirs in *.

(** * Properties *)

Lemma exec_run {A} (m : Py A) (w : World) : exec m w = (run m w).2.
Proof. reflexivity. Qed.

(** ** Columns *)

Lemma ints_of_Some (l : list value) (ns : list Z) :
  ints_of l = Some ns ↔ l = VInt <$> ns.
Proof.
  revert ns. induction l as [|v l IH]; intros ns; simpl.
  - split; [intros [= <-]; done | by intros ->%eq_sym%fmap_nil_inv].
  - destruct v as [n| |]; try (split; [done | by destruct ns]).
    destruct (ints_of l) as [ns'|] eqn:E; simpl.
    + split.
      * intros [= <-]. simpl. f_equal. by apply IH.
      * destruct ns as [|n' ns'']; [done|]. intros [= -> H]. f_equal. f_equal.
        apply IH in H. congruence.
    + split; [done|]. destruct ns as [|n' ns'']; [done|]. intros [= -> H].
      apply IH in H. congruence.
Qed.

Lemma timestamps_of_Some (l : list value) (ts : list Z) :
  timestamps_of l = Some ts ↔ l = VTimestamp <$> ts.
Proof.
  revert ts. induction l as [|v l IH]; intros ts; simpl.
  - split; [intros [= <-]; done | by intros ->%eq_sym%fmap_nil_inv].
  - destruct v as [| |t]; try (split; [done | by destruct ts]).
    destruct (timestamps_of l) as [ts'|] eqn:E; simpl.
    + split.
      * intros [= <-]. simpl. f_equal. by apply IH.
      * destruct ts as [|t' ts'']; [done|]. intros [= -> H]. f_equal. f_equal.
        apply IH in H. congruence.
    + split; [done|]. destruct ts as [|t' ts'']; [done|]. intros [= -> H].
      apply IH in H. congruence.
Qed.

(** ** [update_activity] and [delete_activity] on an id that is not there *)

Lemma update_activity_not_found_df
    (to_datetime : string → option Z) (w : World) (id : value) (kwargs : kwargs_t) :
  id ∉ id_column (df w) →
  run (update_activity to_datetime id kwargs) w
  = (Ok false, mkWorld (df w) (stdout w ++ [ErroreNonTrovata id]) (fs w)).
Proof.
  intros Hid. unfold update_activity. py_unfold. simpl.
  by rewrite decide_True.
Qed.

(** C3: for every store and every id that no live record carries,
    [update_activity] returns [False], prints the not-found message, and
    leaves the table exactly as it was, whatever fields are supplied. *)
Theorem update_activity_not_found
    (to_datetime : string → option Z) (w : World) (id : value) (kwargs : kwargs_t) :
  id ∉ id_column (df w) →
  run (update_activity to_datetime id kwargs) w
  = (Ok false, mkWorld (df w) (stdout w ++ [ErroreNonTrovata id]) (fs w))
  ∧ df (exec (update_activity to_datetime id kwargs) w) = df w
  ∧ fs (exec (update_activity to_datetime id kwargs) w) = fs w.
Proof.
  intros Hid.
  assert (Hrun : run (update_activity to_datetime id kwargs) w
                 = (Ok false, mkWorld (df w) (stdout w ++ [ErroreNonTrovata id]) (fs w))).
  { unfold update_activity, run. unfold mbind at 1, Py_bind, get_df.
    rewrite decide_True by exact Hid. reflexivity. }
  split; [exact Hrun|]. rewrite exec_run, Hrun. done.
Qed.

Lemma update_activity_not_found_witness :
  (VInt 9 ∉ id_column (df esempio))
  ∧ (run (update_activity parse_iso_date (VInt 9) [("Stato", VStr "Completato")]) esempio
     = (Ok false, mkWorld (df esempio) (stdout esempio ++ [ErroreNonTrovata (VInt 9)]) (fs esempio))).
Proof.
  assert (H : VInt 9 ∉ id_column (df esempio))
    by (apply (bool_decide_unpack _); vm_compute; exact I).
  split; [exact H|].
  exact (proj1 (update_activity_not_found parse_iso_date esempio (VInt 9) _ H)).
Defined.

(** ** What [delete_activity] removes *)

Lemma filter_id_absent (d : DataFrame) (id : value) :
  id ∉ id_column d → filter (λ r, ID r ≠ id) d = d.
Proof.
  unfold id_column. induction d as [|r d IH]; intros Hid; [done|].
  rewrite fmap_cons in Hid. apply not_elem_of_cons in Hid as [Hne Hid].
  rewrite filter_cons_True by congruence. f_equal. by apply IH.
Qed.

Lemma filter_id_unique (d : DataFrame) (id : value) :
  id ∈ id_column d → NoDup (id_column d) →
  ∃ l1 r l2, d = l1 ++ r :: l2 ∧ ID r = id ∧ filter (λ r, ID r ≠ id) d = l1 ++ l2.
Proof.
  unfold id_column. induction d as [|r d IH]; intros Hin Hnd.
  - by apply elem_of_nil in Hin.
  - rewrite fmap_cons in Hin, Hnd. apply NoDup_cons in Hnd as [Hr Hnd].
    destruct (decide (ID r = id)) as [Heq|Hne].
    + exists [], r, d. split; [done|]. split; [done|].
      rewrite filter_cons_False by (intros H; by apply H).
      simpl. apply filter_id_absent. by rewrite <- Heq.
    + apply elem_of_cons in Hin as [Hin|Hin]; [congruence|].
      destruct (IH Hin Hnd) as (l1 & r' & l2 & -> & Hr' & Hf).
      exists (r :: l1), r', l2. split; [done|]. split; [done|].
      rewrite filter_cons_True by done. simpl. by rewrite Hf.
Qed.

Lemma count_occ_filter_id (d : DataFrame) (id : value) (r : Row) :
  ID r ≠ id →
  count_occ Row_eq_dec (filter (λ r, ID r ≠ id) d) r = count_occ Row_eq_dec d r.
Proof.
  intros Hne. induction d as [|r' d IH]; [done|].
  destruct (decide (ID r' ≠ id)) as [H|H].
  - rewrite filter_cons_True by done. simpl. by rewrite IH.
  - rewrite filter_cons_False by done. simpl.
    destruct (Row_eq_dec r' r) as [->|]; [by destruct H|done].
Qed.

(** C4: for every store, [delete_activity] on an id that no record carries
    returns [False] and leaves the table as it was; on an id that is there
    it returns [True], and the table that remains holds, in their order and
    with every field as before, exactly the records whose id differs. Where
    the ids are unique, exactly one record has gone: the one with that id. *)
Theorem delete_activity_removes_exactly (w : World) (id : value) :
  (id ∉ id_column (df w) →
     run (delete_activity id) w
     = (Ok false, mkWorld (df w) (stdout w ++ [ErroreNonTrovata id]) (fs w)))
  ∧ (id ∈ id_column (df w) →
     ∃ d', run (delete_activity id) w = (Ok true, mkWorld d' (stdout w) (fs w))
       ∧ d' `sublist_of` df w
       ∧ (∀ r, r ∈ d' ↔ r ∈ df w ∧ ID r ≠ id)
       ∧ (∀ r, r ∈ df w → ID r ≠ id → count_occ Row_eq_dec d' r = count_occ Row_eq_dec (df w) r)
       ∧ (NoDup (id_column (df w)) →
          ∃ l1 r l2, df w = l1 ++ r :: l2 ∧ ID r = id ∧ d' = l1 ++ l2)).
Proof.
  split; intros Hid; unfold delete_activity; py_unfold; simpl.
  - by rewrite decide_True.
  - rewrite decide_False by (intros H; by apply H).
    exists (filter (λ r, ID r ≠ id) (df w)). split; [done|].
    split; [apply sublist_filter|]. split.
    { intros r. rewrite list_elem_of_filter. tauto. }
    split.
    { intros r _ Hne. by apply count_occ_filter_id. }
    intros Hnd. by apply filter_id_unique.
Qed.

Lemma delete_activity_removes_exactly_witness :
  (VInt 3 ∈ id_column (df esempio))
  ∧ NoDup (id_column (df esempio))
  ∧ ∃ d', run (delete_activity (VInt 3)) esempio
          = (Ok true, mkWorld d' (stdout esempio) (fs esempio))
       ∧ ID <$> d' = [VInt 1; VInt 2; VInt 4; VInt 5].
Proof.
  assert (Hin : VInt 3 ∈ id_column (df esempio))
    by (apply (bool_decide_unpack _); vm_compute; exact I).
  assert (Hnd : NoDup (id_column (df esempio)))
    by (apply (bool_decide_unpack _); vm_compute; exact I).
  split; [exact Hin|]. split; [exact Hnd|].
  destruct (proj2 (delete_activity_removes_exactly esempio (VInt 3)) Hin)
    as (d' & Hrun & _ & _ & _ & Huniq).
  exists d'. split; [exact Hrun|].
  vm_compute in Hrun. injection Hrun as <-. reflexivity.
Defined.

(** ** Rendering nothing *)

(** The rows left to draw are none exactly when the table is empty or a
    non-empty filter names a person that no record has. *)
Lemma filter_by_person_nil (filter_person : option string) (d : DataFrame) :
  (filter_by_person filter_person d).1 = []
  ↔ d = [] ∨ ∃ p, filter_person = Some p ∧ p ≠ "" ∧ ∀ r, r ∈ d → Persona_Riferimento r ≠ VStr p.
Proof.
  unfold filter_by_person. destruct filter_person as [p|]; simpl.
  - destruct (decide (p = "")) as [->|Hp]; simpl.
    + split; [by left|]. intros [H|(p & [= <-] & Hp & _)]; [done|by destruct Hp].
    + split.
      * intros Hnil. right. exists p. split; [done|]. split; [done|].
        intros r Hr Heq. by apply (filter_nil_not_elem_of _ _ r Hnil Heq).
      * intros [->|(p' & [= <-] & _ & Hall)]; [done|].
        induction d as [|r d IH]; [done|].
        rewrite filter_cons_False by (apply Hall; left).
        apply IH. intros r' Hr'. apply Hall. by right.
  - split; [by left|]. by intros [H|(p & [=] & _)].
Qed.

(** C7: whenever no row is left to draw (the table is empty, or the person
    filter matches no record), [generate_gantt] returns [None], prints the
    notice, and writes no file: the table and the files are as before. *)
Theorem generate_gantt_nothing_to_render
    (host : Host) (w : World) (output_file : string) (filter_person : option string) :
  (df w = [] ∨ ∃ p, filter_person = Some p ∧ p ≠ ""
                  ∧ ∀ r, r ∈ df w → Persona_Riferimento r ≠ VStr p) →
  run (generate_gantt host output_file filter_person) w
  = (Ok None, mkWorld (df w) (stdout w ++ [NessunaAttività]) (fs w)).
Proof.
  intros H%filter_by_person_nil. unfold generate_gantt. py_unfold. simpl.
  destruct (filter_by_person filter_person (df w)) as [rows suffix].
  simpl in H. subst rows. done.
Qed.

Lemma generate_gantt_nothing_to_render_witness :
  run (generate_gantt host_esempio "gantt_Anna.png" (Some "Anna")) esempio
  = (Ok None, mkWorld (df esempio) (stdout esempio ++ [NessunaAttività]) (fs esempio)).
Proof.
  apply (generate_gantt_nothing_to_render host_esempio esempio "gantt_Anna.png" (Some "Anna")).
  right. exists "Anna". split; [reflexivity|]. split; [discriminate|].
  apply Forall_forall. apply (bool_decide_unpack _). vm_compute. exact I.
Defined.

(** ** The empty string as a filter *)

(** C10: with the empty string as [filter_person], [generate_gantt] does
    what it does with no filter: both calls return the same and leave the
    same output and files; no row is set aside and the title gets no suffix,
    since the filter is tested for truth, not for presence. *)
Theorem generate_gantt_empty_string_filter (host : Host) (w : World) (output_file : string) :
  run (generate_gantt host output_file (Some "")) w
  = run (generate_gantt host output_file None) w
  ∧ filter_by_person (Some "") (df w) = (df w, "")
  ∧ filter_by_person None (df w) = (df w, "").
Proof.
  split; [|done]. unfold generate_gantt. py_unfold. simpl. done.
Qed.

(** ** The id and the row that [add_activity] makes *)

Lemma Zmax_list_ge (n : Z) (ns : list Z) : ∀ i, i ∈ n :: ns → i ≤ Zmax_list n ns.
Proof.
  unfold Zmax_list. induction ns as [|k ns IH]; simpl; intros i Hi.
  - apply list_elem_of_singleton in Hi. lia.
  - apply elem_of_cons in Hi as [->|Hi].
    + specialize (IH n (list_elem_of_here _ _)). lia.
    + apply elem_of_cons in Hi as [->|Hi]; [lia|].
      specialize (IH i (list_elem_of_further _ _ _ Hi)). lia.
Qed.

Lemma Zmax_list_in (n : Z) (ns : list Z) : Zmax_list n ns ∈ n :: ns.
Proof.
  unfold Zmax_list. induction ns as [|k ns IH]; simpl; [left|].
  destruct (Z.max_spec k (fold_right Z.max n ns)) as [[_ ->]|[_ ->]].
  - apply elem_of_cons in IH as [->|IH]; [left|]. by do 2 right.
  - right; left.
Qed.

Lemma Zmin_list_le (n : Z) (ns : list Z) : ∀ i, i ∈ n :: ns → Zmin_list n ns ≤ i.
Proof.
  unfold Zmin_list. induction ns as [|k ns IH]; simpl; intros i Hi.
  - apply list_elem_of_singleton in Hi. lia.
  - apply elem_of_cons in Hi as [->|Hi].
    + specialize (IH n (list_elem_of_here _ _)). lia.
    + apply elem_of_cons in Hi as [->|Hi]; [lia|].
      specialize (IH i (list_elem_of_further _ _ _ Hi)). lia.
Qed.

Lemma Zmin_list_in (n : Z) (ns : list Z) : Zmin_list n ns ∈ n :: ns.
Proof.
  unfold Zmin_list. induction ns as [|k ns IH]; simpl; [left|].
  destruct (Z.min_spec k (fold_right Z.min n ns)) as [[_ ->]|[_ ->]].
  - right; left.
  - apply elem_of_cons in IH as [->|IH]; [left|]. by do 2 right.
Qed.

Lemma next_id_above (ids : list Z) : ∀ i, i ∈ ids → i < next_id ids.
Proof.
  destruct ids as [|n ns]; intros i Hi; [by apply elem_of_nil in Hi|].
  simpl. pose proof (Zmax_list_ge n ns i Hi). lia.
Qed.

Lemma next_id_pred_in (ids : list Z) : ids ≠ [] → next_id ids - 1 ∈ ids.
Proof.
  destruct ids as [|n ns]; [done|]. intros _. simpl.
  replace (Zmax_list n ns + 1 - 1) with (Zmax_list n ns) by lia.
  apply Zmax_list_in.
Qed.

Lemma series_max_ints (l : list value) (n : Z) (ns : list Z) (w : World) :
  ints_of l = Some (n :: ns) → series_max l w = (Ok (VInt (Zmax_list n ns)), w).
Proof. intros H. unfold series_max. by rewrite H. Qed.

(** [add_activity] on a table whose ids are integers, with dates that are
    not strings or are strings the parser accepts. *)
Lemma add_activity_ok (to_datetime : string → option Z) (w : World)
    (nome data_inizio data_fine persona stato inizio fine : value) (ids : list Z) :
  to_datetime_if_str to_datetime data_inizio = Some inizio →
  to_datetime_if_str to_datetime data_fine = Some fine →
  ints_of (id_column (df w)) = Some ids →
  run (add_activity to_datetime nome data_inizio data_fine persona stato) w
  = (Ok (VInt (next_id ids)),
     mkWorld (df w ++ [mkRow (VInt (next_id ids)) nome inizio fine persona stato])
       (stdout w) (fs w)).
Proof.
  intros Hi Hf Hids. unfold add_activity. py_unfold. rewrite Hi, Hf. simpl.
  destruct (df w) as [|r d] eqn:Hd; simpl.
  - apply ints_of_Some, eq_sym, fmap_nil_inv in Hids. by subst ids.
  - destruct ids as [|n ns]; [by apply ints_of_Some in Hids|].
    change (ID r :: id_column d) with (id_column (r :: d)).
    by rewrite (series_max_ints _ n ns w Hids).
Qed.

(** When [add_activity] returns and when it raises: it raises where a date
    string does not parse and where the ID column holds a cell that is not an
    [int], and then the instance is untouched. *)
Lemma add_activity_outcome (to_datetime : string → option Z) (w : World)
    (nome data_inizio data_fine persona stato : value) :
  run (add_activity to_datetime nome data_inizio data_fine persona stato) w
  = match to_datetime_if_str to_datetime data_inizio,
          to_datetime_if_str to_datetime data_fine,
          ints_of (id_column (df w)) with
    | Some inizio, Some fine, Some ids =>
        (Ok (VInt (next_id ids)),
         mkWorld (df w ++ [mkRow (VInt (next_id ids)) nome inizio fine persona stato])
           (stdout w) (fs w))
    | _, _, _ => (Raise, w)
    end.
Proof.
  destruct (to_datetime_if_str to_datetime data_inizio) as [inizio|] eqn:Hi;
    [|unfold add_activity; py_unfold; by rewrite Hi].
  destruct (to_datetime_if_str to_datetime data_fine) as [fine|] eqn:Hf;
    [|unfold add_activity; py_unfold; by rewrite Hi, Hf].
  destruct (ints_of (id_column (df w))) as [ids|] eqn:Hids;
    [by apply add_activity_ok|].
  unfold add_activity. py_unfold. rewrite Hi, Hf. simpl.
  destruct (df w) as [|r d]; [done|]. simpl.
  change (ID r :: id_column d) with (id_column (r :: d)).
  unfold series_max. rewrite Hids.
  destruct (timestamps_of (id_column (r :: d))) as [[|t ts]|];
    destruct (strs_of (id_column (r :: d))) as [[|s ss]|]; done.
Qed.

(** C5: [add_activity] does not look at the order of the two dates. For
    every pair of instants [a] and [b], given as Timestamps or as strings
    that parse to them, the call returns the new id and the table has gained
    the record as given, with the dates normalised; and so it does with the
    two dates exchanged, and with the same date for both. So it goes through
    whether the end is after, at, or before the start (on a table whose ids
    are integers). *)
Theorem add_activity_any_date_order (to_datetime : string → option Z) (w : World)
    (nome data_inizio data_fine persona stato : value) (a b : Z) (ids : list Z) :
  to_datetime_if_str to_datetime data_inizio = Some (VTimestamp a) →
  to_datetime_if_str to_datetime data_fine = Some (VTimestamp b) →
  ints_of (id_column (df w)) = Some ids →
  let added inizio fine :=
    (Ok (VInt (next_id ids)),
     mkWorld (df w ++ [mkRow (VInt (next_id ids)) nome (VTimestamp inizio) (VTimestamp fine)
                         persona stato])
       (stdout w) (fs w)) in
  run (add_activity to_datetime nome data_inizio data_fine persona stato) w = added a b
  ∧ run (add_activity to_datetime nome data_fine data_inizio persona stato) w = added b a
  ∧ run (add_activity to_datetime nome data_inizio data_inizio persona stato) w = added a a.
Proof.
  intros Ha Hb Hids added. subst added. cbv beta.
  rewrite !add_activity_outcome, Ha, Hb, Hids. done.
Qed.

Lemma add_activity_any_date_order_witness :
  midnight 2024 5 1 < midnight 2024 5 15
  ∧ run (add_activity parse_iso_date (VStr "Al contrario") (VStr "2024-05-15")
           (VTimestamp (midnight 2024 5 1)) (VStr "Marco") stato_default) esempio
    = (Ok (VInt 6),
       mkWorld (df esempio ++ [mkRow (VInt 6) (VStr "Al contrario")
                                 (VTimestamp (midnight 2024 5 15))
                                 (VTimestamp (midnight 2024 5 1)) (VStr "Marco") stato_default])
         (stdout esempio) (fs esempio)).
Proof.
  split; [reflexivity|].
  exact (proj1 (add_activity_any_date_order parse_iso_date esempio (VStr "Al contrario")
                  (VStr "2024-05-15") (VTimestamp (midnight 2024 5 1)) (VStr "Marco")
                  stato_default (midnight 2024 5 15) (midnight 2024 5 1) [1; 2; 3; 4; 5]
                  eq_refl eq_refl eq_refl)).
Defined.

Lemma ints_of_filter_id (d : DataFrame) (ids : list Z) (m : Z) :
  ints_of (id_column d) = Some ids →
  ints_of (id_column (filter (λ r, ID r ≠ VInt m) d)) = Some (filter (λ i, i ≠ m) ids).
Proof.
  revert ids. induction d as [|r d IH]; intros ids Hids.
  - apply ints_of_Some, eq_sym, fmap_nil_inv in Hids. by subst ids.
  - apply ints_of_Some in Hids. unfold id_column in Hids. rewrite fmap_cons in Hids.
    destruct ids as [|n ns]; [done|]. injection Hids as Hr Hd.
    apply ints_of_Some in Hd. specialize (IH ns Hd).
    destruct (decide (n = m)) as [->|Hne].
    + rewrite filter_cons_False by (rewrite Hr; intros H; by apply H).
      rewrite filter_cons_False by (intros H; by apply H). done.
    + rewrite filter_cons_True by (rewrite Hr; congruence).
      rewrite filter_cons_True by done.
      unfold id_column in *. rewrite fmap_cons, Hr. simpl. by rewrite IH.
Qed.

Lemma delete_activity_found (w : World) (id : value) :
  id ∈ id_column (df w) →
  run (delete_activity id) w
  = (Ok true, mkWorld (filter (λ r, ID r ≠ id) (df w)) (stdout w) (fs w)).
Proof.
  intros Hid. unfold delete_activity. py_unfold. simpl.
  by rewrite decide_False by (intros H; by apply H).
Qed.

(** C1, amended: on a table whose ids are integers [add_activity] returns
    and stores (largest id in the table)+1, or 1 on the empty table: an id
    above every id then in the table. The largest is taken over the records
    that are there, so after the record with the highest id [m] is deleted
    the next id is (largest remaining id)+1, which is at most [m], or 1 when
    nothing remains: ids come from the current maximum, not from the count,
    and the id just deleted can be given out again. *)
Theorem add_activity_id_from_current_max (to_datetime : string → option Z) (w : World)
    (nome data_inizio data_fine persona stato inizio fine : value) (ids : list Z) :
  to_datetime_if_str to_datetime data_inizio = Some inizio →
  to_datetime_if_str to_datetime data_fine = Some fine →
  ints_of (id_column (df w)) = Some ids →
  run (add_activity to_datetime nome data_inizio data_fine persona stato) w
  = (Ok (VInt (next_id ids)),
     mkWorld (df w ++ [mkRow (VInt (next_id ids)) nome inizio fine persona stato])
       (stdout w) (fs w))
  ∧ (ids = [] → next_id ids = 1)
  ∧ (ids ≠ [] → next_id ids - 1 ∈ ids)
  ∧ (∀ i, i ∈ ids → i < next_id ids)
  ∧ (∀ m, m ∈ ids → (∀ i, i ∈ ids → i ≤ m) →
     ∃ w1 rest,
       run (delete_activity (VInt m)) w = (Ok true, w1)
       ∧ rest = filter (λ i, i ≠ m) ids
       ∧ ints_of (id_column (df w1)) = Some rest
       ∧ (run (add_activity to_datetime nome data_inizio data_fine persona stato) w1).1
         = Ok (VInt (next_id rest))
       ∧ (rest ≠ [] → next_id rest ≤ m)
       ∧ (rest = [] → next_id rest = 1)).
Proof.
  intros Hi Hf Hids.
  split; [by apply add_activity_ok|].
  split; [by intros ->|].
  split; [apply next_id_pred_in|].
  split; [apply next_id_above|].
  intros m Hm Hmax.
  set (rest := filter (λ i, i ≠ m) ids).
  exists (mkWorld (filter (λ r, ID r ≠ VInt m) (df w)) (stdout w) (fs w)), rest.
  assert (Hrest : ints_of (id_column (filter (λ r, ID r ≠ VInt m) (df w))) = Some rest)
    by by apply ints_of_filter_id.
  split.
  { apply delete_activity_found. apply ints_of_Some in Hids. rewrite Hids.
    by apply list_elem_of_fmap_2. }
  split; [done|]. split; [done|]. split.
  { by erewrite add_activity_ok. }
  split; [|by intros ->].
  intros Hne. pose proof (next_id_pred_in rest Hne) as Hin.
  apply list_elem_of_filter in Hin as [Hneq Hin]. specialize (Hmax _ Hin). lia.
Qed.

Lemma add_activity_id_from_current_max_witness :
  ∃ w1, run (delete_activity (VInt 5)) esempio = (Ok true, w1)
      ∧ (run (add_activity parse_iso_date (VStr "Collaudo") (VStr "2024-06-16")
                (VStr "2024-06-20") (VStr "Laura") stato_default) w1).1
        = Ok (VInt 5).
Proof.
  destruct (add_activity_id_from_current_max parse_iso_date esempio
              (VStr "Collaudo") (VStr "2024-06-16") (VStr "2024-06-20") (VStr "Laura")
              stato_default (VTimestamp (midnight 2024 6 16)) (VTimestamp (midnight 2024 6 20))
              [1; 2; 3; 4; 5] eq_refl eq_refl eq_refl)
    as (_ & _ & _ & _ & Hdel).
  destruct (Hdel 5) as (w1 & rest & Hrun & -> & _ & Hadd & _).
  - do 4 right; left.
  - intros i Hi. repeat (apply elem_of_cons in Hi as [->|Hi]; [lia|]).
    by apply elem_of_nil in Hi.
  - exists w1. split; [exact Hrun | exact Hadd].
Defined.

(** C1 as stated fails: in the example table, whose ids are 1 to 5, the
    record with the highest id, 5, is deleted; the next [add_activity]
    returns 5 again. The new id is the id just deleted, not (previous
    maximum)+1 = 6, and the ids handed out (…, 5, 5) do not strictly
    increase. *)
Lemma add_after_delete_reuses_highest_id :
  ints_of (id_column (df esempio)) = Some [1; 2; 3; 4; 5]
  ∧ (run (delete_activity (VInt 5)) esempio).1 = Ok true
  ∧ (run (add_activity parse_iso_date (VStr "Collaudo") (VStr "2024-06-16")
            (VStr "2024-06-20") (VStr "Laura") stato_default)
       (exec (delete_activity (VInt 5)) esempio)).1 = Ok (VInt 5)
  ∧ VInt 5 ≠ VInt (5 + 1).
Proof. repeat split; try reflexivity. discriminate. Qed.

(** ** Unique ids *)

Lemma set_column_ID_same (r : Row) : set_column "ID" (ID r) r = r.
Proof. by destruct r. Qed.

Lemma ID_set_column (key : string) (v : value) (r : Row) :
  ID (set_column key v r) = if decide (key = "ID") then v else ID r.
Proof. unfold set_column. repeat case_decide; done. Qed.





Lemma exec_update_fields_cons (id : value) (key : string) (v : value)
    (rest : kwargs_t) (w : World) :
  exec (update_fields id ((key, v) :: rest)) w
  = exec (update_fields id rest)
      (if decide (key ∈ columns)
       then mkWorld (loc_assign id key v (df w)) (stdout w) (fs w)
       else mkWorld (df w) (stdout w ++ [AvvisoCampo key]) (fs w)).
Proof. py_unfold. simpl. by case_decide. Qed.

(** The loop never raises. *)
Lemma update_fields_returns (id : value) (kwargs : kwargs_t) (w : World) :
  update_fields id kwargs w = (Ok (), exec (update_fields id kwargs) w).
Proof.
  revert w. induction kwargs as [|[key v] rest IH]; intros w; [done|].
  rewrite exec_update_fields_cons. simpl. py_unfold. simpl.
  case_decide; simpl; apply IH.
Qed.


Lemma kw_set_other (key k : string) (x v : value) (kwargs : kwargs_t) :
  k ≠ key → (k, v) ∈ kw_set key x kwargs → (k, v) ∈ kwargs.
Proof.
  intros Hk. induction kwargs as [|[k' v'] rest IH]; simpl; [done|].
  case_decide as Hkey.
  - intros [[= -> ->]|H]%elem_of_cons; [done|by right].
  - intros [[= -> ->]|H]%elem_of_cons; [left|right; by apply IH].
Qed.

Lemma normalize_kwarg_other (to_datetime : string → option Z) (key k : string)
    (v : value) (kwargs kwargs' : kwargs_t) :
  normalize_kwarg to_datetime key kwargs = Some kwargs' →
  k ≠ key → (k, v) ∈ kwargs' → (k, v) ∈ kwargs.
Proof.
  unfold normalize_kwarg. intros H Hk Hin.
  destruct (kw_get key kwargs) as [[n|s|t]|]; simplify_eq; try done.
  destruct (to_datetime s) as [t|]; simplify_eq/=. by eapply kw_set_other.
Qed.

(** [update_activity] on an id that is there: the fields, with their date
    strings parsed, go through the loop and the call returns [True]; a date
    string that does not parse raises before anything is changed. *)
Lemma update_activity_found (to_datetime : string → option Z) (w : World)
    (id : value) (kwargs : kwargs_t) :
  id ∈ id_column (df w) →
  run (update_activity to_datetime id kwargs) w
  = match normalize_kwarg to_datetime "Data_Inizio" kwargs
          ≫= normalize_kwarg to_datetime "Data_Fine" with
    | Some kwargs' => (Ok true, exec (update_fields id kwargs') w)
    | None => (Raise, w)
    end.
Proof.
  intros Hid. unfold update_activity.
  unfold run, mbind at 1 2 3 4, mret, Py_bind, Py_ret, lift, get_df, print. simpl.
  rewrite decide_False by (intros H; by apply H).
  destruct (normalize_kwarg to_datetime "Data_Inizio" kwargs) as [k1|]; [|done]. simpl.
  destruct (normalize_kwarg to_datetime "Data_Fine" k1) as [k2|]; [|done].
  unfold mbind, Py_bind. by rewrite update_fields_returns.
Qed.






(** ** Which fields [update_activity] applies *)

Lemma set_column_unknown (key : string) (v : value) (r : Row) :
  key ∉ columns → set_column key v r = r.
Proof.
  intros Hk. unfold set_column, columns in *.
  repeat (case_decide; [subst; exfalso; apply Hk; set_solver|]). done.
Qed.

Lemma get_set_column (k key : string) (v : value) (r : Row) :
  key ∈ columns →
  get_column k (set_column key v r) = if decide (k = key) then Some v else get_column k r.
Proof.
  intros Hkey. unfold columns in Hkey.
  repeat (apply elem_of_cons in Hkey as [->|Hkey];
          [unfold get_column, set_column; repeat (case_decide; simplify_eq/=; try done)|]).
  by apply elem_of_nil in Hkey.
Qed.

(** Without a field named ID, the loop writes every field to the records
    with the given id, leaves the other records alone, and prints one
    warning for each name that is not a column, in order. *)
Lemma update_fields_without_ID (id : value) (kwargs : kwargs_t) (w : World) :
  "ID" ∉ kwargs.*1 →
  exec (update_fields id kwargs) w
  = mkWorld ((λ r, if decide (ID r = id) then apply_fields kwargs r else r) <$> df w)
      (stdout w ++ (AvvisoCampo <$> filter (λ k, k ∉ columns) kwargs.*1))
      (fs w).
Proof.
  revert w. induction kwargs as [|[key v] rest IH]; intros w Hno.
  - destruct w as [d out files]. unfold exec. simpl. rewrite app_nil_r. f_equal.
    symmetry. etransitivity; [|apply list_fmap_id].
    apply list_fmap_ext. intros _ r _. by case_decide.
  - rewrite fmap_cons in Hno. apply not_elem_of_cons in Hno as [Hkey Hno]. simpl in Hkey.
    rewrite exec_update_fields_cons, IH by done. rewrite fmap_cons. simpl fst.
    case_decide as Hcol; simpl.
    + rewrite filter_cons_False by (intros H; by apply H). f_equal.
      unfold loc_assign. rewrite <- list_fmap_compose. apply list_fmap_ext.
      intros _ r _. simpl. destruct (decide (ID r = id)) as [Hr|Hr].
      * rewrite decide_True; [done|]. rewrite ID_set_column. by rewrite decide_False.
      * by rewrite decide_False.
    + rewrite filter_cons_True by done. rewrite fmap_cons, <- app_assoc. simpl. f_equal.
      apply list_fmap_ext. intros _ r _. simpl. case_decide; [|done].
      by rewrite set_column_unknown.
Qed.

Lemma get_column_apply_fields_other (k : string) (kwargs : kwargs_t) (r : Row) :
  k ∉ kwargs.*1 → get_column k (apply_fields kwargs r) = get_column k r.
Proof.
  unfold apply_fields. revert r. induction kwargs as [|[key v] rest IH]; intros r Hk; [done|].
  rewrite fmap_cons in Hk. apply not_elem_of_cons in Hk as [Hne Hk]. simpl in *.
  rewrite IH by done. destruct (decide (key ∈ columns)) as [Hcol|Hcol].
  - rewrite get_set_column by done. by rewrite decide_False.
  - by rewrite set_column_unknown.
Qed.

(** Every recognised field ends up in the record: with each name given once,
    the column [k] of the result holds the value supplied for [k]. *)
Lemma get_column_apply_fields (k : string) (v : value) (kwargs : kwargs_t) (r : Row) :
  NoDup kwargs.*1 → (k, v) ∈ kwargs → k ∈ columns →
  get_column k (apply_fields kwargs r) = Some v.
Proof.
  revert r. induction kwargs as [|[key v'] rest IH]; intros r Hnd Hin Hcol.
  - by apply elem_of_nil in Hin.
  - rewrite fmap_cons in Hnd. apply NoDup_cons in Hnd as [Hfresh Hnd].
    apply elem_of_cons in Hin as [[= <- <-]|Hin].
    + change (apply_fields ((k, v) :: rest) r) with (apply_fields rest (set_column k v r)).
      rewrite get_column_apply_fields_other by done.
      rewrite get_set_column by done. by rewrite decide_True.
    + change (apply_fields ((key, v') :: rest) r)
        with (apply_fields rest (set_column key v' r)).
      by apply IH.
Qed.

Lemma kw_set_keys (key : string) (x : value) (kwargs : kwargs_t) :
  (kw_set key x kwargs).*1 = kwargs.*1.
Proof.
  induction kwargs as [|[k v] rest IH]; [done|]. simpl.
  case_decide; rewrite !fmap_cons; [done|]. by rewrite IH.
Qed.

Lemma normalize_kwarg_keys (to_datetime : string → option Z) (key : string)
    (kwargs kwargs' : kwargs_t) :
  normalize_kwarg to_datetime key kwargs = Some kwargs' → kwargs'.*1 = kwargs.*1.
Proof.
  unfold normalize_kwarg. intros H.
  destruct (kw_get key kwargs) as [[n|s|t]|]; simplify_eq; try done.
  destruct (to_datetime s) as [t|]; simplify_eq/=. apply kw_set_keys.
Qed.

(** Where no field is named ID and the date strings parse, [update_activity]
    on an id that is there writes every field, with its dates parsed, to the
    records with that id, warns about each unknown name and returns [True]. *)
Lemma update_activity_without_ID (to_datetime : string → option Z) (w : World)
    (id : value) (kwargs k1 k2 : kwargs_t) :
  id ∈ id_column (df w) →
  normalize_kwarg to_datetime "Data_Inizio" kwargs = Some k1 →
  normalize_kwarg to_datetime "Data_Fine" k1 = Some k2 →
  "ID" ∉ kwargs.*1 →
  run (update_activity to_datetime id kwargs) w
  = (Ok true,
     mkWorld ((λ r, if decide (ID r = id) then apply_fields k2 r else r) <$> df w)
       (stdout w ++ (AvvisoCampo <$> filter (λ k, k ∉ columns) kwargs.*1))
       (fs w)).
Proof.
  intros Hid H1 H2 Hno. rewrite (update_activity_found _ _ _ _ Hid), H1. simpl.
  rewrite H2. f_equal.
  assert (Hkeys : k2.*1 = kwargs.*1).
  { rewrite (normalize_kwarg_keys _ _ _ _ H2). by apply normalize_kwarg_keys in H1. }
  rewrite update_fields_without_ID by (by rewrite Hkeys). by rewrite Hkeys.
Qed.

(** C6, where the code departs from it: record 1 of the example table is
    updated with ID=7, Stato='Completato' and an unknown field. The call
    returns [True] and warns about the unknown field, but the record, now
    with id 7, still has its old Stato: once the ID cell is overwritten the
    mask [self.df['ID'] == id] matches no row and the later recognised field
    is not applied. With the same fields in the other order it is. *)
Theorem update_activity_drops_fields_after_ID :
  let kwargs := [("ID", VInt 7); ("Stato", VStr "Completato"); ("Priorita", VInt 1)] in
  let kwargs' := [("Stato", VStr "Completato"); ("Priorita", VInt 1); ("ID", VInt 7)] in
  let w1 := exec (update_activity parse_iso_date (VInt 1) kwargs) esempio in
  let w2 := exec (update_activity parse_iso_date (VInt 1) kwargs') esempio in
  (run (update_activity parse_iso_date (VInt 1) kwargs) esempio).1 = Ok true
  ∧ stdout w1 = [AvvisoCampo "Priorita"]
  ∧ (ID <$> df w1 !! 0%nat) = Some (VInt 7)
  ∧ (Stato <$> df w1 !! 0%nat) = Some (VStr "In corso")
  ∧ (∀ r, r ∈ df w1 → Stato r ≠ VStr "Completato")
  ∧ (ID <$> df w2 !! 0%nat) = Some (VInt 7)
  ∧ (Stato <$> df w2 !! 0%nat) = Some (VStr "Completato").
Proof.
  repeat split; try reflexivity.
  apply Forall_forall. apply (bool_decide_unpack _). vm_compute. exact I.
Qed.

(** ** The range of the x axis *)

Lemma insert_row_perm (r : Row) (l : DataFrame) : insert_row r l ≡ₚ r :: l.
Proof.
  induction l as [|r' l IH]; simpl; [done|].
  destruct (value_leb _ _); [done|]. by rewrite IH, Permutation_swap.
Qed.

(** Sorting moves rows; it neither drops nor makes any. *)
Lemma sort_perm (d : DataFrame) : foldr insert_row [] d ≡ₚ d.
Proof.
  induction d as [|r d IH]; simpl; [done|]. by rewrite insert_row_perm, IH.
Qed.

Lemma timestamps_of_Forall (l : list value) :
  is_Some (timestamps_of l) ↔ Forall (λ v, ∃ t, v = VTimestamp t) l.
Proof.
  split.
  - intros [ts ->%timestamps_of_Some]. apply Forall_fmap, Forall_forall. intros t _. by exists t.
  - induction 1 as [|v l [t ->] _ [ts IH]]; simpl; [by eexists|]. rewrite IH. by eexists.
Qed.

Lemma timestamps_of_elem (l : list value) (ts : list Z) (s : Z) :
  timestamps_of l = Some ts → s ∈ ts ↔ VTimestamp s ∈ l.
Proof.
  intros ->%timestamps_of_Some. rewrite list_elem_of_fmap. split.
  - intros Hs. by exists s.
  - by intros (t & [= ->] & Ht).
Qed.

Lemma timestamps_of_perm (l l' : list value) (ts : list Z) :
  l ≡ₚ l' → timestamps_of l = Some ts →
  ∃ ts', timestamps_of l' = Some ts' ∧ ∀ s, s ∈ ts' ↔ s ∈ ts.
Proof.
  intros Hp Hts.
  assert (Hsome : is_Some (timestamps_of l')).
  { apply timestamps_of_Forall. rewrite <- Hp. apply timestamps_of_Forall. by eexists. }
  destruct Hsome as [ts' Hts']. exists ts'. split; [done|]. intros s.
  rewrite (timestamps_of_elem _ _ s Hts), (timestamps_of_elem _ _ s Hts'). by rewrite Hp.
Qed.

Lemma series_min_timestamps (l : list value) (t : Z) (ts : list Z) (w : World) :
  timestamps_of l = Some (t :: ts) →
  series_min l w = (Ok (VTimestamp (Zmin_list t ts)), w).
Proof.
  intros H. unfold series_min. rewrite H.
  destruct l as [|[| |t'] l]; try done.
Qed.

Lemma series_max_timestamps (l : list value) (t : Z) (ts : list Z) (w : World) :
  timestamps_of l = Some (t :: ts) →
  series_max l w = (Ok (VTimestamp (Zmax_list t ts)), w).
Proof.
  intros H. unfold series_max. rewrite H.
  destruct l as [|[| |t'] l]; try done.
Qed.

Lemma timedelta_days_opp (t n : Z) : t + timedelta_days (- n) = t - timedelta_days n.
Proof. unfold timedelta_days. lia. Qed.

Lemma has_dates_timestamps (d : DataFrame) :
  Forall has_dates d
  ↔ is_Some (timestamps_of (Data_Inizio <$> d)) ∧ is_Some (timestamps_of (Data_Fine <$> d)).
Proof.
  rewrite !timestamps_of_Forall, !Forall_fmap, <- Forall_and. done.
Qed.

Lemma drawable_has_dates (host : Host) (r : Row) : drawable host r → has_dates r.
Proof. intros (s & e & Hs & He & _). split; by eexists. Qed.

(** *** Steps that leave the world alone *)

Lemma pure_ret {A} (a : A) : pure (mret a : Py A).
Proof. by exists (Ok a). Qed.

Lemma pure_raise {A} : pure (raise : Py A).
Proof. by exists Raise. Qed.

Lemma pure_bind {A B} (m : Py A) (k : A → Py B) :
  pure m → (∀ a, pure (k a)) → pure (m ≫= k).
Proof.
  intros [[a|] Hm] Hk.
  - destruct (Hk a) as [r Hr]. exists r. intros w.
    unfold mbind, Py_bind. by rewrite Hm, Hr.
  - exists Raise. intros w. unfold mbind, Py_bind. by rewrite Hm.
Qed.

Lemma pure_plus_days (v : value) (n : Z) : pure (plus_days v n).
Proof.
  destruct v as [i|s|t]; simpl; try apply pure_raise.
  destruct (in_bounds _); [apply pure_ret|apply pure_raise].
Qed.

Lemma pure_days_between (e s : value) : pure (days_between e s).
Proof.
  destruct e as [| |e], s as [| |s]; simpl; try apply pure_raise.
  destruct (in_bounds _); [apply pure_ret|apply pure_raise].
Qed.

Lemma pure_barh (host : Host) (b : Bar) : pure (barh host b).
Proof.
  unfold barh. destruct (barh_ok host (bar_y b)); [by exists (Ok b)|by exists Raise].
Qed.

Lemma pure_series_min (l : list value) : pure (series_min l).
Proof.
  unfold series_min.
  destruct (ints_of l) as [[|n ns]|], (timestamps_of l) as [[|t ts]|],
    (strs_of l) as [[|s ss]|]; first [apply pure_ret|apply pure_raise].
Qed.

Lemma pure_series_max (l : list value) : pure (series_max l).
Proof.
  unfold series_max.
  destruct (ints_of l) as [[|n ns]|], (timestamps_of l) as [[|t ts]|],
    (strs_of l) as [[|s ss]|]; first [apply pure_ret|apply pure_raise].
Qed.

Lemma pure_sort_values (d : DataFrame) : pure (sort_values_Data_Inizio d).
Proof.
  unfold sort_values_Data_Inizio. destruct (comparable _); [apply pure_ret|apply pure_raise].
Qed.

Lemma pure_draw_tasks (host : Host) (d : DataFrame) : pure (draw_tasks host d).
Proof.
  induction d as [|r d IH]; simpl; [apply pure_ret|].
  apply pure_bind; [apply pure_days_between|intros duration].
  apply pure_bind; [apply pure_barh|intros bar].
  apply pure_bind; [apply pure_plus_days|intros x].
  apply pure_bind; [exact IH|intros [bs ts]]. apply pure_ret.
Qed.

Lemma pure_layout (host : Host) (rows : DataFrame) : pure (layout host rows).
Proof.
  unfold layout.
  apply pure_bind; [apply pure_sort_values|intros sorted].
  apply pure_bind; [apply pure_draw_tasks|intros [bs ts]].
  apply pure_bind.
  { apply pure_bind; [apply pure_series_min|intros m; apply pure_plus_days]. }
  intros lo. apply pure_bind.
  { apply pure_bind; [apply pure_series_max|intros m; apply pure_plus_days]. }
  intros hi. apply pure_ret.
Qed.

(** A step that leaves the world alone hands its result to what follows. *)
Lemma pure_step {A B} (m : Py A) (k : A → Py B) (w : World) :
  pure m →
  (m ≫= k) w = match (m w).1 with Ok a => k a w | Raise => (Raise, w) end.
Proof.
  intros [r Hr]. unfold mbind, Py_bind. rewrite Hr. by destruct r.
Qed.

(** The layout does not depend on the world it is computed in. *)
Lemma layout_any_world (host : Host) (rows : DataFrame) (w w' : World) :
  (layout host rows w).1 = (layout host rows w').1.
Proof. destruct (pure_layout host rows) as [r Hr]. by rewrite !Hr. Qed.

(** *** The drawing loop *)

(** The loop draws a bar and a label for every row, or stops with the
    exception at the first row it cannot draw; either way it leaves the
    world alone. *)
Lemma draw_tasks_cases (host : Host) (d : DataFrame) (w : World) :
  (Forall (drawable host) d
   ∧ ∃ bs ts, draw_tasks host d w = (Ok (bs, ts), w)
       ∧ Forall2 bar_for d bs ∧ Forall2 text_for d ts)
  ∨ (¬ Forall (drawable host) d ∧ draw_tasks host d w = (Raise, w)).
Proof.
  induction d as [|r d IH].
  { left. split; [constructor|]. exists [], []. by repeat split; constructor. }
  assert (Hstop : ¬ drawable host r → ¬ Forall (drawable host) (r :: d)).
  { intros Hr [? _]%Forall_cons. by apply Hr. }
  simpl.
  destruct (Data_Inizio r) as [n|s'|s] eqn:Hs;
    [right; split; [apply Hstop; intros (? & ? & ? & ? & ? & ? & ?); congruence
                   |py_unfold; simpl; by destruct (Data_Fine r)]..|].
  destruct (Data_Fine r) as [n|s'|e] eqn:He;
    [right; split; [apply Hstop; intros (? & ? & ? & ? & ? & ? & ?); congruence
                   |by py_unfold]..|].
  simpl.
  destruct (in_bounds (e - s)) eqn:Hb1;
    [|right; split; [apply Hstop; intros (? & ? & ? & ? & ? & ? & ?); congruence
                    |by py_unfold]].
  destruct (barh_ok host (Nome_Attività r)) eqn:Hb2;
    [|right; split; [apply Hstop; intros (? & ? & ? & ? & ? & ? & ?); congruence
                    |py_unfold; simpl; by rewrite Hb2]].
  destruct (in_bounds (e + timedelta_days 1)) eqn:Hb3;
    [|right; split; [apply Hstop; intros (? & ? & ? & ? & ? & ? & ?); congruence
                    |py_unfold; simpl; by rewrite Hb2]].
  destruct IH as [[Hall (bs & ts & Hd & Hbs & Hts)]|[Hbad Hd]].
  - left. split.
    { constructor; [|done]. exists s, e. by rewrite Hs, He. }
    eexists _, _. split.
    { py_unfold. simpl. rewrite Hb2, Hd. reflexivity. }
    split; constructor; try done.
    + exists s, e. by rewrite Hs, He.
    + exists e. by rewrite He.
  - right. split; [by intros [_ ?]%Forall_cons|].
    py_unfold. simpl. by rewrite Hb2, Hd.
Qed.

(** *** The layout *)

(** The layout of the rows left by the filter: every row has been drawn, in
    order of start date, and the axis runs from three days before the
    earliest start to fifteen days after the latest end; or an exception,
    where there is no row, a row cannot be drawn or an end of the axis is
    out of bounds. *)
Lemma layout_cases (host : Host) (rows : DataFrame) (w : World) :
  (∃ bs ts first last,
     layout host rows w
     = (Ok (bs, ts, (VTimestamp (first - timedelta_days 3),
                     VTimestamp (last + timedelta_days 15))), w)
     ∧ rows ≠ [] ∧ Forall (drawable host) rows
     ∧ Forall2 bar_for (foldr insert_row [] rows) bs
     ∧ Forall2 text_for (foldr insert_row [] rows) ts
     ∧ VTimestamp first ∈ Data_Inizio <$> rows
     ∧ (∀ r, r ∈ rows → ∃ s, Data_Inizio r = VTimestamp s ∧ first ≤ s)
     ∧ VTimestamp last ∈ Data_Fine <$> rows
     ∧ (∀ r, r ∈ rows → ∃ e, Data_Fine r = VTimestamp e ∧ e ≤ last))
  ∨ (layout host rows w = (Raise, w)
     ∧ (rows = [] ∨ ¬ Forall (drawable host) rows ∨ ¬ axis_in_bounds rows)).
Proof.
  destruct (decide (rows = [])) as [->|Hne].
  { right. split; [done|by left]. }
  pose proof (sort_perm rows) as Hp. set (sorted := foldr insert_row [] rows) in *.
  destruct (draw_tasks_cases host sorted w)
    as [[Hall (bs & ts & Hd & Hbs & Hts)]|[Hbad Hd]].
  2:{ right. split; [|right; left; by rewrite <- Hp].
      unfold layout, sort_values_Data_Inizio.
      destruct (comparable _); [|done]. py_unfold. fold sorted. by rewrite Hd. }
  assert (Hdates : Forall has_dates sorted).
  { eapply Forall_impl; [exact Hall|]. apply drawable_has_dates. }
  destruct (proj1 (has_dates_timestamps sorted) Hdates) as [[starts Hs] [ends He]].
  assert (Hdates' : Forall has_dates rows) by by rewrite <- Hp.
  destruct (proj1 (has_dates_timestamps rows) Hdates') as [[starts0 Hs0] _].
  assert (Hsorted : sorted ≠ []).
  { intros H. rewrite H in Hp. by apply Permutation_nil_l in Hp. }
  destruct starts as [|s0 ss].
  { apply timestamps_of_Some, fmap_nil_inv in Hs. done. }
  destruct ends as [|e0 es].
  { apply timestamps_of_Some, fmap_nil_inv in He. done. }
  assert (Hfirst : VTimestamp (Zmin_list s0 ss) ∈ Data_Inizio <$> rows).
  { rewrite <- Hp. apply (timestamps_of_elem _ _ _ Hs), Zmin_list_in. }
  assert (Hlast : VTimestamp (Zmax_list e0 es) ∈ Data_Fine <$> rows).
  { rewrite <- Hp. apply (timestamps_of_elem _ _ _ He), Zmax_list_in. }
  assert (Hc : comparable (Data_Inizio <$> rows) = true).
  { unfold comparable. rewrite Hs0.
    rewrite (bool_decide_eq_true_2 (is_Some (Some starts0))) by by eexists.
    by rewrite orb_true_r. }
  assert (Hl : layout host rows w
               = if in_bounds (Zmin_list s0 ss - timedelta_days 3)
                    && in_bounds (Zmax_list e0 es + timedelta_days 15)
                 then (Ok (bs, ts, (VTimestamp (Zmin_list s0 ss - timedelta_days 3),
                                    VTimestamp (Zmax_list e0 es + timedelta_days 15))), w)
                 else (Raise, w)).
  { unfold layout, sort_values_Data_Inizio. rewrite Hc. py_unfold. fold sorted.
    rewrite Hd, (series_min_timestamps _ _ _ _ Hs). unfold plus_days. py_unfold.
    rewrite (timedelta_days_opp _ 3).
    destruct (in_bounds (Zmin_list s0 ss - timedelta_days 3)); [|done].
    rewrite (series_max_timestamps _ _ _ _ He).
    by destruct (in_bounds (Zmax_list e0 es + timedelta_days 15)). }
  rewrite Hl.
  destruct (in_bounds (Zmin_list s0 ss - timedelta_days 3)) eqn:Hlo.
  2:{ right. split; [done|]. right; right. intros [Hax _].
      rewrite (Hax _ Hfirst) in Hlo. done. }
  destruct (in_bounds (Zmax_list e0 es + timedelta_days 15)) eqn:Hhi.
  2:{ right. split; [done|]. right; right. intros [_ Hax].
      rewrite (Hax _ Hlast) in Hhi. done. }
  left. exists bs, ts, (Zmin_list s0 ss), (Zmax_list e0 es).
  split; [done|]. split; [done|]. split; [by rewrite <- Hp|].
  split; [done|]. split; [done|]. split; [done|]. split; [|split; [done|]].
  - intros r Hr. rewrite Forall_forall in Hdates'.
    destruct (Hdates' r Hr) as [[s Hrs] _]. exists s. split; [done|].
    apply Zmin_list_le, (timestamps_of_elem _ _ _ Hs). rewrite Hp, <- Hrs.
    by apply list_elem_of_fmap_2.
  - intros r Hr. rewrite Forall_forall in Hdates'.
    destruct (Hdates' r Hr) as [_ [e Hre]]. exists e. split; [done|].
    apply Zmax_list_ge, (timestamps_of_elem _ _ _ He). rewrite Hp, <- Hre.
    by apply list_elem_of_fmap_2.
Qed.

(** The rows that [generate_gantt] is left with, spelled out. *)
Lemma filter_by_person_rows (filter_person : option string) (d : DataFrame) :
  (filter_by_person filter_person d).1
  = match filter_person with
    | Some p => if decide (p = "") then d
                else filter (λ r, Persona_Riferimento r = VStr p) d
    | None => d
    end.
Proof. unfold filter_by_person. destruct filter_person as [p|]; [|done]. by case_decide. Qed.

(** [generate_gantt] in one step: the notice where no row is left, else the
    layout, written with [plt.savefig] where it can be. *)
Lemma generate_gantt_run (host : Host) (w : World) (output_file : string)
    (filter_person : option string) :
  run (generate_gantt host output_file filter_person) w
  = if decide ((filter_by_person filter_person (df w)).1 = []) then
      (Ok None, mkWorld (df w) (stdout w ++ [NessunaAttività]) (fs w))
    else
      match (layout host (filter_by_person filter_person (df w)).1 w).1 with
      | Ok (bs, ts, lims) =>
          if savefig_ok host output_file bs ts then
            (Ok (Some output_file),
             mkWorld (df w) (stdout w ++ [GanttSalvato output_file])
               (<[output_file :=
                    mkChart ("Diagramma di Gantt" +:+ (filter_by_person filter_person (df w)).2)
                      "Data" "Attività" bs ts colori_stati lims]> (fs w)))
          else (Raise, w)
      | Raise => (Raise, w)
      end.
Proof.
  unfold generate_gantt, run. unfold mbind at 1, Py_bind, get_df.
  destruct (filter_by_person filter_person (df w)) as [rows suffix]. simpl.
  destruct (decide (rows = [])) as [->|Hne]; [done|].
  rewrite decide_False by (by destruct rows).
  unfold layout.
  rewrite !(pure_step (sort_values_Data_Inizio rows)) by apply pure_sort_values.
  destruct (sort_values_Data_Inizio rows w).1 as [sorted|]; [|done].
  rewrite !(pure_step (draw_tasks host sorted)) by apply pure_draw_tasks.
  destruct (draw_tasks host sorted w).1 as [[bs ts]|]; [|done].
  rewrite !(pure_step (series_min _ ≫= _))
    by (apply pure_bind; [apply pure_series_min|intros m; apply pure_plus_days]).
  destruct ((series_min _ ≫= _) w).1 as [lo|]; [|done].
  rewrite !(pure_step (series_max _ ≫= _))
    by (apply pure_bind; [apply pure_series_max|intros m; apply pure_plus_days]).
  destruct ((series_max _ ≫= _) w).1 as [hi|]; [|done].
  py_unfold. simpl. destruct (savefig_ok host output_file bs ts); done.
Qed.

(** C8: whenever [generate_gantt] writes a chart, the rendered set, that is
    the rows left by the filter, is not empty, and the x axis of the chart
    runs from the earliest Data_Inizio among the rendered rows, less 3 days,
    to the latest Data_Fine among them, plus 15 days. And it does write the
    chart, at [output_file], for every non-empty rendered set whose rows can
    be drawn, whose axis ends are within the range of Timestamps, and whose
    figure [plt.savefig] takes at that path. *)
Theorem generate_gantt_xlim (host : Host) (w : World) (output_file : string)
    (filter_person : option string) :
  let rendered :=
    match filter_person with
    | Some p => if decide (p = "") then df w
                else filter (λ r, Persona_Riferimento r = VStr p) (df w)
    | None => df w
    end in
  (∀ path w',
     run (generate_gantt host output_file filter_person) w = (Ok (Some path), w') →
     path = output_file ∧ rendered ≠ []
     ∧ ∃ c first last,
         w' = mkWorld (df w) (stdout w ++ [GanttSalvato output_file])
                (<[output_file := c]> (fs w))
         ∧ VTimestamp first ∈ Data_Inizio <$> rendered
         ∧ (∀ r, r ∈ rendered → ∃ s, Data_Inizio r = VTimestamp s ∧ first ≤ s)
         ∧ VTimestamp last ∈ Data_Fine <$> rendered
         ∧ (∀ r, r ∈ rendered → ∃ e, Data_Fine r = VTimestamp e ∧ e ≤ last)
         ∧ xlim c = (VTimestamp (first - timedelta_days 3),
                     VTimestamp (last + timedelta_days 15)))
  ∧ (rendered ≠ [] →
     Forall (drawable host) rendered →
     axis_in_bounds rendered →
     savefig_takes host output_file rendered →
     ∃ w', run (generate_gantt host output_file filter_person) w
           = (Ok (Some output_file), w')).
Proof.
  intros rendered. subst rendered. rewrite <- filter_by_person_rows.
  rewrite generate_gantt_run.
  set (rows := (filter_by_person filter_person (df w)).1).
  destruct (decide (rows = [])) as [Hnil|Hne]; [split; [intros ?? [=]|done]|].
  destruct (layout_cases host rows w)
    as [(bs & ts & first & last & -> & _ & Hall & Hbs & Hts & Hf & Hfmin & Hl & Hlmax)
       |[-> Hwhy]]; simpl.
  - split.
    + destruct (savefig_ok host output_file bs ts); [|intros ?? [=]].
      intros path w' [= <- <-]. split; [done|]. split; [done|].
      eexists _, first, last. split; [reflexivity|]. done.
    + intros _ _ _ Htakes.
      rewrite (Htakes (foldr insert_row [] rows) bs ts (sort_perm rows) Hbs Hts). eauto.
  - split; [intros ?? [=]|]. intros _ Hall Hax _.
    destruct Hwhy as [?|[?|?]]; done.
Qed.

(** On the example table, which spans 2024-05-01 to 2024-06-15, the chart
    runs from 2024-04-28 to 2024-06-30; filtered for Marco, whose activities
    end on 2024-06-05, it runs from 2024-04-28 to 2024-06-20. *)
Lemma generate_gantt_xlim_witness :
  (∃ c w',
     run (generate_gantt host_esempio "gantt_Marco.png" (Some "Marco")) esempio
     = (Ok (Some "gantt_Marco.png"), w')
     ∧ fs w' !! "gantt_Marco.png" = Some c
     ∧ xlim c = (VTimestamp (midnight 2024 4 28), VTimestamp (midnight 2024 6 20)))
  ∧ (∃ c w',
       run (generate_gantt host_esempio "gantt_completo.png" None) esempio
       = (Ok (Some "gantt_completo.png"), w')
       ∧ fs w' !! "gantt_completo.png" = Some c
       ∧ xlim c = (VTimestamp (midnight 2024 4 28), VTimestamp (midnight 2024 6 30))).
Proof.
  remember (df esempio) as d eqn:Hd.
  assert (Hdraw : Forall (drawable host_esempio) d).
  { vm_compute in Hd. subst d.
    repeat constructor; eexists _, _; repeat split; reflexivity. }
  assert (Haxis : ∀ rows, rows ⊆ d → axis_in_bounds rows).
  { vm_compute in Hd. subst d.
    intros rows Hsub. split; intros t (r & Ht & Hr%Hsub)%list_elem_of_fmap;
      repeat (apply elem_of_cons in Hr as [->|Hr]; [injection Ht as ->; reflexivity|]);
      apply elem_of_nil in Hr; destruct Hr. }
  subst d.
  split.
  - destruct (generate_gantt_xlim host_esempio esempio "gantt_Marco.png" (Some "Marco"))
      as [Hchart Hreturns].
    destruct Hreturns as [w' Hrun].
    + vm_compute. discriminate.
    + simpl. apply Forall_forall. intros r [_ Hr]%list_elem_of_filter.
      rewrite Forall_forall in Hdraw. by apply Hdraw.
    + apply Haxis. simpl. intros r [_ Hr]%list_elem_of_filter. done.
    + intros sorted bs ts _ _ _. reflexivity.
    + destruct (Hchart _ _ Hrun) as (_ & _ & c & first & last & -> & _).
      exists c. eexists. split; [exact Hrun|].
      split; [apply lookup_insert_eq|].
      assert (Hc : fs (run (generate_gantt host_esempio "gantt_Marco.png" (Some "Marco")) esempio).2
                   !! "gantt_Marco.png" = Some c)
        by (rewrite Hrun; apply lookup_insert_eq).
      vm_compute in Hc. injection Hc as <-. reflexivity.
  - destruct (generate_gantt_xlim host_esempio esempio "gantt_completo.png" None)
      as [Hchart Hreturns].
    destruct Hreturns as [w' Hrun].
    + vm_compute. discriminate.
    + exact Hdraw.
    + by apply Haxis.
    + intros sorted bs ts _ _ _. reflexivity.
    + destruct (Hchart _ _ Hrun) as (_ & _ & c & first & last & -> & _).
      exists c. eexists. split; [exact Hrun|].
      split; [apply lookup_insert_eq|].
      assert (Hc : fs (run (generate_gantt host_esempio "gantt_completo.png" None) esempio).2
                   !! "gantt_completo.png" = Some c)
        by (rewrite Hrun; apply lookup_insert_eq).
      vm_compute in Hc. injection Hc as <-. reflexivity.
Defined.


(** ** Saving the table and loading it again *)













(** * Further properties of the store *)

(** ** Persons *)

Lemma unique_from_elem (seen l : list value) (x : value) :
  x ∈ unique_from seen l ↔ x ∈ l ∧ x ∉ seen.
Proof.
  revert seen. induction l as [|y l IH]; intros seen; simpl.
  - split; [by intros ?%elem_of_nil | by intros [?%elem_of_nil _]].
  - case_decide as Hy.
    + rewrite IH, elem_of_cons. split; [tauto|].
      intros [[->|Hx] Hs]; [done|tauto].
    + rewrite !elem_of_cons, IH, not_elem_of_cons. split.
      * intros [->|[Hx [Hne Hs]]]; tauto.
      * intros [[->|Hx] Hs]; [tauto|].
        destruct (decide (x = y)); tauto.
Qed.

Lemma unique_from_NoDup (seen l : list value) : NoDup (unique_from seen l).
Proof.
  revert seen. induction l as [|y l IH]; intros seen; simpl; [constructor|].
  case_decide; [apply IH|]. constructor; [|apply IH].
  rewrite unique_from_elem, not_elem_of_cons. tauto.
Qed.

Lemma unique_from_snoc (seen l : list value) (x : value) :
  unique_from seen (l ++ [x])
  = unique_from seen l ++ (if decide (x ∈ seen ∨ x ∈ l) then [] else [x]).
Proof.
  revert seen. induction l as [|y l IH]; intros seen; simpl.
  - case_decide as H1; case_decide as H2; try done.
    + destruct H2. by left.
    + destruct H2 as [H2|H2%elem_of_nil]; done.
  - destruct (decide (y ∈ seen)) as [Hy|Hy]; rewrite IH; simpl.
    + f_equal. apply decide_ext. rewrite elem_of_cons. split; [tauto|].
      intros [Hs|[->|Hl]]; tauto.
    + f_equal. f_equal. apply decide_ext. rewrite !elem_of_cons. tauto.
Qed.

Lemma unique_from_sublist (seen l : list value) : unique_from seen l `sublist_of` l.
Proof.
  revert seen. induction l as [|y l IH]; intros seen; simpl; [done|].
  case_decide; [apply sublist_cons, IH | apply sublist_skip, IH].
Qed.

(** X1: [get_unique_persons] changes nothing and returns every person of the
    table exactly once; the persons come in the order of the table, and a
    record added at the end puts its person at the end of the list if no
    earlier record has it, and leaves the list as it is otherwise. *)
Theorem get_unique_persons_distinct (w : World) :
  ∃ ps, run get_unique_persons w = (Ok ps, w)
    ∧ NoDup ps
    ∧ (∀ p, p ∈ ps ↔ ∃ r, r ∈ df w ∧ Persona_Riferimento r = p)
    ∧ ps `sublist_of` (Persona_Riferimento <$> df w)
    ∧ (∀ r, (run get_unique_persons (mkWorld (df w ++ [r]) (stdout w) (fs w))).1
            = Ok (ps ++ (if decide (Persona_Riferimento r ∈ ps) then []
                         else [Persona_Riferimento r]))).
Proof.
  exists (series_unique (Persona_Riferimento <$> df w)). unfold series_unique.
  split; [done|]. split; [apply unique_from_NoDup|]. split.
  { intros p. rewrite unique_from_elem, list_elem_of_fmap. split.
    - intros [(r & -> & Hr) _]. by exists r.
    - intros (r & Hr & <-). split; [by exists r | apply not_elem_of_nil]. }
  split; [apply unique_from_sublist|].
  intros r. unfold run, get_unique_persons. py_unfold. simpl.
  unfold series_unique. rewrite fmap_app. simpl. rewrite unique_from_snoc.
  do 2 f_equal. apply decide_ext. rewrite unique_from_elem. split.
  - intros [H%elem_of_nil|H]; [done|]. split; [done|apply not_elem_of_nil].
  - intros [H _]. by right.
Qed.

(** X2: [get_activities_by_person] changes nothing and returns, in table
    order, exactly the records whose person is the one asked for; the result
    is non-empty exactly for the persons that [get_unique_persons] lists. *)
Theorem get_activities_by_person_exact (w : World) (person : value) :
  ∃ rows, run (get_activities_by_person person) w = (Ok rows, w)
    ∧ rows `sublist_of` df w
    ∧ (∀ r, r ∈ rows ↔ r ∈ df w ∧ Persona_Riferimento r = person)
    ∧ (rows ≠ [] ↔ ∃ ps, (run get_unique_persons w).1 = Ok ps ∧ person ∈ ps).
Proof.
  exists (filter (λ r, Persona_Riferimento r = person) (df w)).
  split; [done|]. split; [apply sublist_filter|]. split.
  { intros r. rewrite list_elem_of_filter. tauto. }
  split.
  - intros Hne. exists (series_unique (Persona_Riferimento <$> df w)). split; [done|].
    unfold series_unique. rewrite unique_from_elem. split; [|apply not_elem_of_nil].
    destruct (filter _ (df w)) as [|r rows] eqn:Hf; [done|].
    assert (Hr : r ∈ filter (λ r, Persona_Riferimento r = person) (df w))
      by (rewrite Hf; left).
    apply list_elem_of_filter in Hr as [<- Hr]. by apply list_elem_of_fmap_2.
  - intros (ps & [= <-] & Hp) Hnil. unfold series_unique in Hp.
    apply unique_from_elem in Hp as [(r & -> & Hr)%list_elem_of_fmap _].
    by apply (filter_nil_not_elem_of _ _ r Hnil).
Qed.

Lemma sum_indicator (x : value) (ps : list value) :
  NoDup ps →
  sum_list ((λ p, if decide (x = p) then 1%nat else 0%nat) <$> ps)
  = if decide (x ∈ ps) then 1%nat else 0%nat.
Proof.
  induction 1 as [|p ps Hp Hnd IH]; [done|]. rewrite fmap_cons. simpl. rewrite IH.
  destruct (decide (x = p)) as [->|Hne].
  - rewrite (decide_False (P := p ∈ ps)) by done.
    by rewrite decide_True by left.
  - simpl. apply decide_ext. rewrite elem_of_cons. tauto.
Qed.

Lemma sum_per_person (d : DataFrame) (ps : list value) :
  NoDup ps → (∀ r, r ∈ d → Persona_Riferimento r ∈ ps) →
  sum_list ((λ p, length (filter (λ r, Persona_Riferimento r = p) d)) <$> ps) = length d.
Proof.
  intros Hnd. induction d as [|r d IH]; intros Hall.
  - simpl. clear Hnd Hall. induction ps as [|p ps IHp]; [done|].
    rewrite fmap_cons. simpl. apply IHp.
  - assert (Hsplit : ∀ qs,
      sum_list ((λ p, length (filter (λ r, Persona_Riferimento r = p) (r :: d))) <$> qs)
      = (sum_list ((λ p, if decide (Persona_Riferimento r = p) then 1%nat else 0%nat) <$> qs)
         + sum_list ((λ p, length (filter (λ r, Persona_Riferimento r = p) d)) <$> qs))%nat).
    { induction qs as [|q qs IHq]; [done|]. rewrite !fmap_cons. simpl sum_list.
      rewrite IHq. destruct (decide (Persona_Riferimento r = q)) as [Hq|Hq].
      - rewrite filter_cons_True by done. simpl. lia.
      - rewrite filter_cons_False by done. simpl. lia. }
    rewrite Hsplit, sum_indicator by done.
    rewrite decide_True by (apply Hall; left).
    rewrite IH by (intros r' Hr'; apply Hall; by right). done.
Qed.

(** X3: the per-person views split the table: over the persons that
    [get_unique_persons] lists, the numbers of records that
    [get_activities_by_person] returns add up to the number of records. *)
Theorem activities_by_person_partition (w : World) (ps : list value) (counts : list nat) :
  (run get_unique_persons w).1 = Ok ps →
  Forall2 (λ p n, ∃ rows, (run (get_activities_by_person p) w).1 = Ok rows ∧ length rows = n)
    ps counts →
  sum_list counts = length (df w).
Proof.
  intros [= <-] Hcounts.
  assert (counts = (λ p, length (filter (λ r, Persona_Riferimento r = p) (df w)))
                     <$> series_unique (Persona_Riferimento <$> df w)) as ->.
  { induction Hcounts as [|p n ps counts (rows & [= <-] & <-) _ IH]; [done|].
    rewrite fmap_cons. by f_equal. }
  apply sum_per_person; [apply unique_from_NoDup|].
  intros r Hr. unfold series_unique. rewrite unique_from_elem.
  split; [by apply list_elem_of_fmap_2 | apply not_elem_of_nil].
Qed.

Lemma activities_by_person_partition_witness :
  sum_list [2%nat; 2%nat; 1%nat] = length (df esempio).
Proof.
  apply (activities_by_person_partition esempio [VStr "Marco"; VStr "Laura"; VStr "Giulia"]).
  - reflexivity.
  - repeat constructor; eexists; (split; [reflexivity|]); reflexivity.
Defined.

(** ** How the store operations compose *)

Lemma next_id_fresh (d : DataFrame) (ids : list Z) :
  ints_of (id_column d) = Some ids → VInt (next_id ids) ∉ id_column d.
Proof.
  intros ->%ints_of_Some (n & [= <-] & Hn%next_id_above)%list_elem_of_fmap. lia.
Qed.

(** X4: deleting the id that [add_activity] has just returned undoes the
    addition: the instance is exactly as it was before the two calls. *)
Theorem add_then_delete_restores (to_datetime : string → option Z) (w : World)
    (nome data_inizio data_fine persona stato inizio fine : value) (ids : list Z) :
  to_datetime_if_str to_datetime data_inizio = Some inizio →
  to_datetime_if_str to_datetime data_fine = Some fine →
  ints_of (id_column (df w)) = Some ids →
  ∃ new_id w1,
    run (add_activity to_datetime nome data_inizio data_fine persona stato) w = (Ok new_id, w1)
    ∧ run (delete_activity new_id) w1 = (Ok true, w).
Proof.
  intros Hi Hf Hids. eexists _, _. split; [by apply add_activity_ok|].
  rewrite delete_activity_found; simpl.
  - rewrite filter_app, filter_id_absent by by apply next_id_fresh.
    rewrite filter_cons_False by (simpl; intros H; by apply H).
    rewrite filter_nil, app_nil_r. by destruct w.
  - unfold id_column. rewrite fmap_app. apply elem_of_app. right. simpl. left.
Qed.

Lemma add_then_delete_restores_witness :
  ∃ new_id w1,
    run (add_activity parse_iso_date (VStr "Collaudo") (VStr "2024-06-16")
           (VStr "2024-06-20") (VStr "Laura") stato_default) esempio = (Ok new_id, w1)
    ∧ run (delete_activity new_id) w1 = (Ok true, esempio).
Proof.
  exact (add_then_delete_restores parse_iso_date esempio (VStr "Collaudo")
           (VStr "2024-06-16") (VStr "2024-06-20") (VStr "Laura") stato_default
           (VTimestamp (midnight 2024 6 16)) (VTimestamp (midnight 2024 6 20))
           [1; 2; 3; 4; 5] eq_refl eq_refl eq_refl).
Defined.

(** X5: a record that [add_activity] has stored is found again: its id is
    in the table, which has grown by one record, and
    [get_activities_by_person] for its person returns what it returned
    before, followed by the new record. *)
Theorem add_then_found (to_datetime : string → option Z) (w : World)
    (nome data_inizio data_fine persona stato : value) (new_id : value) (w1 : World) :
  run (add_activity to_datetime nome data_inizio data_fine persona stato) w = (Ok new_id, w1) →
  new_id ∈ id_column (df w1)
  ∧ length (df w1) = S (length (df w))
  ∧ ∃ before r,
      (run (get_activities_by_person persona) w).1 = Ok before
      ∧ (run (get_activities_by_person persona) w1).1 = Ok (before ++ [r])
      ∧ ID r = new_id ∧ Nome_Attività r = nome ∧ Persona_Riferimento r = persona
      ∧ Stato r = stato
      ∧ to_datetime_if_str to_datetime data_inizio = Some (Data_Inizio r)
      ∧ to_datetime_if_str to_datetime data_fine = Some (Data_Fine r).
Proof.
  rewrite add_activity_outcome.
  destruct (to_datetime_if_str to_datetime data_inizio) as [inizio|]; [|done].
  destruct (to_datetime_if_str to_datetime data_fine) as [fine|]; [|done].
  destruct (ints_of (id_column (df w))) as [ids|]; [|done].
  intros [= <- <-]. simpl.
  split. { unfold id_column. rewrite fmap_app. apply elem_of_app. right. left. }
  split. { rewrite length_app. simpl. lia. }
  eexists _, _. split; [reflexivity|].
  unfold run, get_activities_by_person. py_unfold. simpl.
  rewrite filter_app, filter_cons_True by done. rewrite filter_nil. done.
Qed.

Lemma add_then_found_witness :
  VInt 6 ∈ id_column (df (exec (add_activity parse_iso_date (VStr "Collaudo")
                                  (VStr "2024-06-16") (VStr "2024-06-20") (VStr "Laura")
                                  stato_default) esempio)).
Proof.
  eapply (add_then_found parse_iso_date esempio (VStr "Collaudo") (VStr "2024-06-16")
            (VStr "2024-06-20") (VStr "Laura") stato_default (VInt 6)).
  reflexivity.
Defined.

(** X6: once [delete_activity] has been called on an id, no record carries
    it: a second delete, and any update, of that id returns [False] and
    leaves the table as the first delete left it. *)
Theorem delete_then_gone (to_datetime : string → option Z) (w : World) (id : value) :
  let w1 := exec (delete_activity id) w in
  (id ∉ id_column (df w1))
  ∧ run (delete_activity id) w1
    = (Ok false, mkWorld (df w1) (stdout w1 ++ [ErroreNonTrovata id]) (fs w1))
  ∧ ∀ kwargs, run (update_activity to_datetime id kwargs) w1
              = (Ok false, mkWorld (df w1) (stdout w1 ++ [ErroreNonTrovata id]) (fs w1)).
Proof.
  intros w1.
  assert (Hgone : id ∉ id_column (df w1)).
  { subst w1. destruct (decide (id ∈ id_column (df w))) as [Hin|Hout].
    - rewrite exec_run, (delete_activity_found w id Hin). simpl.
      intros (r & Hr & [Hne _]%list_elem_of_filter)%list_elem_of_fmap. done.
    - rewrite exec_run. unfold run, delete_activity. py_unfold. simpl.
      by rewrite decide_True. }
  split; [done|]. split.
  - unfold run, delete_activity. py_unfold. simpl. by rewrite decide_True.
  - intros kwargs. by apply update_activity_not_found_df.
Qed.




(** ** What [update_activity] touches *)

Lemma update_fields_frame (id : value) (kwargs : kwargs_t) (w : World) :
  ∃ f : Row → Row,
    df (exec (update_fields id kwargs) w) = f <$> df w
    ∧ (∀ r, ID r ≠ id → f r = r)
    ∧ fs (exec (update_fields id kwargs) w) = fs w.
Proof.
  revert w. induction kwargs as [|[key v] rest IH]; intros w.
  - exists (λ r, r). split; [|done]. unfold exec. simpl. symmetry. apply list_fmap_id.
  - rewrite exec_update_fields_cons. case_decide as Hcol.
    + destruct (IH (mkWorld (loc_assign id key v (df w)) (stdout w) (fs w)))
        as (f & Hdf & Hf & Hfs).
      exists (λ r, f (if decide (ID r = id) then set_column key v r else r)).
      split; [|split; [|done]].
      * rewrite Hdf. simpl. unfold loc_assign. by rewrite <- list_fmap_compose.
      * intros r Hr. rewrite decide_False by done. by apply Hf.
    + destruct (IH (mkWorld (df w) (stdout w ++ [AvvisoCampo key]) (fs w)))
        as (f & Hdf & Hf & Hfs).
      by exists f.
Qed.

(** X8: whatever fields it is given, and whether it returns or raises,
    [update_activity] neither adds nor removes a record, leaves every record
    whose id is not the one given exactly as it was and where it was, and
    writes no file. *)
Theorem update_activity_frame (to_datetime : string → option Z) (w : World)
    (id : value) (kwargs : kwargs_t) :
  let w' := exec (update_activity to_datetime id kwargs) w in
  length (df w') = length (df w)
  ∧ (∀ i r, df w !! i = Some r → ID r ≠ id → df w' !! i = Some r)
  ∧ fs w' = fs w.
Proof.
  intros w'. subst w'. rewrite exec_run.
  destruct (decide (id ∈ id_column (df w))) as [Hin|Hout].
  - rewrite (update_activity_found _ _ _ _ Hin).
    destruct (normalize_kwarg to_datetime "Data_Inizio" kwargs ≫= _) as [k2|]; [|done].
    simpl. destruct (update_fields_frame id k2 w) as (f & -> & Hf & ->).
    split; [by rewrite length_fmap|]. split; [|done].
    intros i r Hi Hr. rewrite list_lookup_fmap, Hi. simpl. by rewrite Hf.
  - by rewrite (update_activity_not_found_df _ _ _ _ Hout).
Qed.

Lemma kw_get_elem (key : string) (v : value) (kwargs : kwargs_t) :
  NoDup kwargs.*1 → (key, v) ∈ kwargs → kw_get key kwargs = Some v.
Proof.
  induction kwargs as [|[k v'] rest IH]; intros Hnd Hin.
  - by apply elem_of_nil in Hin.
  - rewrite fmap_cons in Hnd. apply NoDup_cons in Hnd as [Hk Hnd]. simpl in *.
    apply elem_of_cons in Hin as [[= -> ->]|Hin].
    + by rewrite decide_True.
    + rewrite decide_False; [by apply IH|].
      intros ->. apply Hk. by apply (list_elem_of_fmap_2 fst _ (key, v)).
Qed.

Lemma kw_get_set_other (key key' : string) (x : value) (kwargs : kwargs_t) :
  key ≠ key' → kw_get key (kw_set key' x kwargs) = kw_get key kwargs.
Proof.
  intros Hne. induction kwargs as [|[k v] rest IH]; [done|]. simpl.
  destruct (decide (k = key')) as [->|Hk]; simpl.
  - by rewrite !decide_False by done.
  - case_decide; [done|apply IH].
Qed.

(** X9: a date field that is a string the parser rejects makes
    [update_activity] raise before it has written anything: no field of the
    call is applied, also not those named before the date, and nothing is
    printed. *)
Theorem update_activity_bad_date (to_datetime : string → option Z) (w : World)
    (id : value) (kwargs : kwargs_t) (key s : string) :
  id ∈ id_column (df w) →
  NoDup kwargs.*1 →
  key = "Data_Inizio" ∨ key = "Data_Fine" →
  (key, VStr s) ∈ kwargs →
  to_datetime s = None →
  run (update_activity to_datetime id kwargs) w = (Raise, w).
Proof.
  intros Hid Hnd Hkey Hin Hs. rewrite (update_activity_found _ _ _ _ Hid).
  pose proof (kw_get_elem _ _ _ Hnd Hin) as Hget.
  destruct Hkey as [->| ->].
  - unfold normalize_kwarg at 2. by rewrite Hget, Hs.
  - destruct (normalize_kwarg to_datetime "Data_Inizio" kwargs) as [k1|] eqn:H1; [|done].
    simpl. assert (Hget1 : kw_get "Data_Fine" k1 = Some (VStr s)).
    { unfold normalize_kwarg in H1.
      destruct (kw_get "Data_Inizio" kwargs) as [[n|s'|t]|]; simplify_eq; try done.
      destruct (to_datetime s') as [t|]; simplify_eq/=.
      by rewrite kw_get_set_other. }
    unfold normalize_kwarg. by rewrite Hget1, Hs.
Qed.

Lemma update_activity_bad_date_witness :
  run (update_activity parse_iso_date (VInt 2)
         [("Stato", VStr "Completato"); ("Data_Fine", VStr "domani")]) esempio
  = (Raise, esempio).
Proof.
  apply (update_activity_bad_date parse_iso_date esempio (VInt 2) _ "Data_Fine" "domani").
  - apply (bool_decide_unpack _). vm_compute. exact I.
  - apply (bool_decide_unpack _). vm_compute. exact I.
  - by right.
  - right; left.
  - reflexivity.
Defined.

Lemma kw_get_Some_elem (key : string) (v : value) (kwargs : kwargs_t) :
  kw_get key kwargs = Some v → (key, v) ∈ kwargs.
Proof.
  induction kwargs as [|[k v'] rest IH]; simpl; [done|].
  case_decide as Hk; [intros [= ->]; subst; left | intros H; right; by apply IH].
Qed.

Lemma kw_set_elem_key (key : string) (x : value) (kwargs : kwargs_t) :
  key ∈ kwargs.*1 → (key, x) ∈ kw_set key x kwargs.
Proof.
  induction kwargs as [|[k v] rest IH]; simpl; [by intros ?%elem_of_nil|].
  rewrite elem_of_cons. intros Hin. case_decide as Hk; [subst; left|].
  right. apply IH. destruct Hin; [congruence|done].
Qed.

Lemma kw_set_other_intro (key k : string) (x v : value) (kwargs : kwargs_t) :
  k ≠ key → (k, v) ∈ kwargs → (k, v) ∈ kw_set key x kwargs.
Proof.
  intros Hk. induction kwargs as [|[k' v'] rest IH]; simpl; [done|].
  intros [[= <- <-]|Hin]%elem_of_cons.
  - rewrite decide_False by done. left.
  - case_decide; right; [done|by apply IH].
Qed.

(** What parsing one date field does to the fields: names and order stay,
    the value under [key] is parsed if it is a string, the others are
    untouched. *)
Lemma normalize_kwarg_spec (to_datetime : string → option Z) (key : string)
    (kwargs : kwargs_t) :
  NoDup kwargs.*1 →
  (∀ s, (key, VStr s) ∈ kwargs → is_Some (to_datetime s)) →
  ∃ k', normalize_kwarg to_datetime key kwargs = Some k'
    ∧ k'.*1 = kwargs.*1
    ∧ ∀ k v, (k, v) ∈ kwargs →
        ∃ v', (k, v') ∈ k'
          ∧ (k = key → to_datetime_if_str to_datetime v = Some v')
          ∧ (k ≠ key → v' = v).
Proof.
  intros Hnd Hparse. unfold normalize_kwarg.
  destruct (kw_get key kwargs) as [v0|] eqn:Hget.
  - destruct v0 as [n|s|t].
    + exists kwargs. split; [done|]. split; [done|]. intros k v Hin. exists v.
      split; [done|]. split; [|done]. intros ->.
      rewrite (kw_get_elem _ _ _ Hnd Hin) in Hget. by simplify_eq.
    + destruct (Hparse s (kw_get_Some_elem _ _ _ Hget)) as [t Ht]. rewrite Ht. simpl.
      eexists. split; [done|]. split; [apply kw_set_keys|]. intros k v Hin.
      destruct (decide (k = key)) as [->|Hk].
      * exists (VTimestamp t). split.
        { apply kw_set_elem_key. by apply (list_elem_of_fmap_2 fst _ (key, v)). }
        split; [|done]. intros _.
        rewrite (kw_get_elem _ _ _ Hnd Hin) in Hget. simplify_eq. simpl. by rewrite Ht.
      * exists v. split; [by apply kw_set_other_intro|]. done.
    + exists kwargs. split; [done|]. split; [done|]. intros k v Hin. exists v.
      split; [done|]. split; [|done]. intros ->.
      rewrite (kw_get_elem _ _ _ Hnd Hin) in Hget. by simplify_eq.
  - exists kwargs. split; [done|]. split; [done|]. intros k v Hin. exists v.
    split; [done|]. split; [|done]. intros ->.
    rewrite (kw_get_elem _ _ _ Hnd Hin) in Hget. done.
Qed.

(** X10: called on an id that is there, with fields none of which is named
    ID and date strings that parse, [update_activity] returns [True], prints
    one warning for each name that is not a column, in the order given, and
    in every record with that id each field that names a column now holds the
    value supplied (a date string as the Timestamp it parses to), while the
    columns not named keep their values. *)
Theorem update_activity_stores_fields (to_datetime : string → option Z) (w : World)
    (id : value) (kwargs : kwargs_t) :
  id ∈ id_column (df w) →
  NoDup kwargs.*1 →
  "ID" ∉ kwargs.*1 →
  (∀ key s, key = "Data_Inizio" ∨ key = "Data_Fine" →
            (key, VStr s) ∈ kwargs → is_Some (to_datetime s)) →
  ∃ w', run (update_activity to_datetime id kwargs) w = (Ok true, w')
    ∧ stdout w' = stdout w ++ (AvvisoCampo <$> filter (λ k, k ∉ columns) kwargs.*1)
    ∧ ∀ i r, df w !! i = Some r → ID r = id →
        ∃ r', df w' !! i = Some r' ∧ ID r' = id
          ∧ (∀ k v, (k, v) ∈ kwargs → k ∈ columns →
               ∃ v', get_column k r' = Some v'
                 ∧ (k = "Data_Inizio" ∨ k = "Data_Fine" →
                    to_datetime_if_str to_datetime v = Some v')
                 ∧ (k ≠ "Data_Inizio" → k ≠ "Data_Fine" → v' = v))
          ∧ (∀ k, k ∉ kwargs.*1 → get_column k r' = get_column k r).
Proof.
  intros Hid Hnd Hno Hparse.
  destruct (normalize_kwarg_spec to_datetime "Data_Inizio" kwargs Hnd)
    as (k1 & H1 & Hkeys1 & Hval1).
  { intros s. apply Hparse. by left. }
  destruct (normalize_kwarg_spec to_datetime "Data_Fine" k1) as (k2 & H2 & Hkeys2 & Hval2).
  { by rewrite Hkeys1. }
  { intros s Hs. apply (Hparse "Data_Fine"); [by right|].
    by eapply normalize_kwarg_other. }
  eexists. split; [by eapply update_activity_without_ID|]. simpl. split; [done|].
  assert (Hk2 : k2.*1 = kwargs.*1) by congruence.
  intros i r Hi Hr. exists (apply_fields k2 r).
  split. { rewrite list_lookup_fmap, Hi. simpl. by rewrite decide_True. }
  split.
  { pose proof (get_column_apply_fields_other "ID" k2 r) as HID.
    rewrite Hk2 in HID. specialize (HID Hno). unfold get_column in HID. simpl in HID.
    congruence. }
  split.
  - intros k v Hin Hcol.
    destruct (Hval1 k v Hin) as (v1 & Hin1 & Hsame1 & Hother1).
    destruct (Hval2 k v1 Hin1) as (v2 & Hin2 & Hsame2 & Hother2).
    exists v2. split.
    { apply get_column_apply_fields; [by rewrite Hk2|done|done]. }
    split.
    + intros [->| ->].
      * rewrite Hother2 by done. by apply Hsame1.
      * rewrite <- (Hother1 ltac:(done)) at 1. by apply Hsame2.
    + intros Hne1 Hne2. rewrite Hother2, Hother1 by done. done.
  - intros k Hk. apply get_column_apply_fields_other. by rewrite Hk2.
Qed.

Lemma update_activity_stores_fields_witness :
  ∃ w', run (update_activity parse_iso_date (VInt 2)
               [("Stato", VStr "Completato"); ("Data_Fine", VStr "2024-06-02");
                ("Priorita", VInt 1)]) esempio = (Ok true, w')
      ∧ stdout w' = [AvvisoCampo "Priorita"]
      ∧ (Stato <$> df w' !! 1%nat) = Some (VStr "Completato")
      ∧ (Data_Fine <$> df w' !! 1%nat) = Some (VTimestamp (midnight 2024 6 2)).
Proof.
  destruct (update_activity_stores_fields parse_iso_date esempio (VInt 2)
              [("Stato", VStr "Completato"); ("Data_Fine", VStr "2024-06-02");
               ("Priorita", VInt 1)]) as (w' & Hrun & Hout & _).
  - apply (bool_decide_unpack _). vm_compute. exact I.
  - apply (bool_decide_unpack _). vm_compute. exact I.
  - apply (bool_decide_unpack _). vm_compute. exact I.
  - intros key s Hkey Hin.
    apply elem_of_cons in Hin as [[= -> ->]|Hin]; [by destruct Hkey|].
    apply elem_of_cons in Hin as [[= -> ->]|Hin]; [by eexists|].
    apply elem_of_cons in Hin as [[=]|Hin]. apply elem_of_nil in Hin. destruct Hin.
  - exists w'. split; [exact Hrun|]. vm_compute in Hrun. injection Hrun as <-.
    repeat split; reflexivity.
Defined.

(** * Further properties of the renderer *)

Lemma starts_before_total (r1 r2 : Row) (s1 s2 : Z) :
  Data_Inizio r1 = VTimestamp s1 → Data_Inizio r2 = VTimestamp s2 →
  value_leb (Data_Inizio r1) (Data_Inizio r2) = false → starts_before r2 r1.
Proof.
  intros H1 H2. rewrite H1, H2. simpl. intros Hle%Z.leb_gt.
  exists s2, s1. repeat split; [done..|lia].
Qed.

Lemma insert_row_sorted (r : Row) (l : DataFrame) :
  (∃ s, Data_Inizio r = VTimestamp s) →
  Forall (λ r', ∃ s, Data_Inizio r' = VTimestamp s) l →
  StronglySorted starts_before l → StronglySorted starts_before (insert_row r l).
Proof.
  intros [s Hs] Hall Hsorted. induction Hsorted as [|r' l Hl IH Hr']; simpl.
  - repeat constructor.
  - apply Forall_cons in Hall as [[s' Hs'] Hall].
    destruct (value_leb (Data_Inizio r) (Data_Inizio r')) eqn:Hle.
    + rewrite Hs, Hs' in Hle. simpl in Hle. apply Z.leb_le in Hle.
      constructor; [by constructor|]. constructor.
      * exists s, s'. done.
      * eapply Forall_impl; [exact Hr'|]. intros r'' (a & b & Ha & Hb & Hab).
        exists s, b. repeat split; [done..|]. rewrite Hs' in Ha. simplify_eq. lia.
    + constructor; [by apply IH|].
      rewrite insert_row_perm. constructor; [|done].
      by eapply starts_before_total.
Qed.

(** The rows come out of the sort in ascending order of Data_Inizio. *)
Lemma sort_sorted (d : DataFrame) :
  Forall (λ r, ∃ s, Data_Inizio r = VTimestamp s) d →
  StronglySorted starts_before (foldr insert_row [] d).
Proof.
  induction 1 as [|r d Hr Hd IH]; simpl; [constructor|].
  apply insert_row_sorted; [done| |done]. by rewrite sort_perm.
Qed.

(** X11: however it ends, [generate_gantt] leaves the table as it was and
    touches no file other than [output_file]; unless it returns
    [output_file] it writes no file at all, and when it raises it has
    printed nothing either. *)
Theorem generate_gantt_frame (host : Host) (w : World) (output_file : string)
    (filter_person : option string) :
  let call := run (generate_gantt host output_file filter_person) w in
  df call.2 = df w
  ∧ (∀ path, path ≠ output_file → fs call.2 !! path = fs w !! path)
  ∧ (call.1 ≠ Ok (Some output_file) → fs call.2 = fs w)
  ∧ (call.1 = Raise → call.2 = w).
Proof.
  intros call. subst call. rewrite generate_gantt_run.
  destruct (decide _) as [Hnil|Hne]; [done|].
  destruct (layout host _ w).1 as [[[bs ts] lims]|]; [|done].
  destruct (savefig_ok host output_file bs ts); [|done]. simpl.
  split; [done|]. split; [|done]. intros path Hpath. by rewrite lookup_insert_ne.
Qed.


Lemma colore_in_legend (stato : value) : colore stato ∈ colori_stati.*2.
Proof.
  destruct stato as [n|s|t]; simpl; [set_solver| |set_solver].
  repeat (case_decide; [set_solver|]). set_solver.
Qed.

(** X13: the chart that [generate_gantt] has written when it returns has
    one bar and one label for each row the filter leaves, in ascending order
    of start date: the bar at the activity's name, starting at the start
    date, as many whole days wide as lie between start and end, in the
    colour of the status; the label with the person, one day past the end
    date. The title ends with the person filtered for, the axes are labelled
    Data and Attività, the legend is the fixed table of five statuses, and
    every bar has a colour of the legend, also for a status that is not in
    the table. *)
Theorem generate_gantt_bars (host : Host) (w w' : World) (output_file : string)
    (filter_person : option string) :
  run (generate_gantt host output_file filter_person) w = (Ok (Some output_file), w') →
  ∃ c sorted,
    fs w' !! output_file = Some c
    ∧ sorted ≡ₚ (filter_by_person filter_person (df w)).1
    ∧ StronglySorted starts_before sorted
    ∧ Forall2 bar_for sorted (bars c)
    ∧ Forall2 text_for sorted (texts c)
    ∧ title c = "Diagramma di Gantt" +:+ (filter_by_person filter_person (df w)).2
    ∧ xlabel c = "Data" ∧ ylabel c = "Attività"
    ∧ legend c = colori_stati
    ∧ (∀ b, b ∈ bars c → bar_color b ∈ (legend c).*2).
Proof.
  rewrite generate_gantt_run.
  set (rows := (filter_by_person filter_person (df w)).1).
  destruct (decide (rows = [])) as [Hnil|Hne]; [intros [=]|].
  destruct (layout_cases host rows w)
    as [(bs & ts & first & last & -> & _ & Hall & Hbs & Hts & _)|[-> _]];
    simpl; [|intros [=]].
  destruct (savefig_ok host output_file bs ts); [|intros [=]].
  intros [= <-]. eexists _, (foldr insert_row [] rows). simpl.
  split; [apply lookup_insert_eq|]. simpl.
  split; [apply sort_perm|]. split.
  { apply sort_sorted. eapply Forall_impl; [exact Hall|].
    intros r (s & e & Hs & _). by exists s. }
  split; [done|]. split; [done|]. split; [done|]. split; [done|].
  split; [done|]. split; [done|].
  intros b Hb. apply list_elem_of_lookup in Hb as [i Hi].
  destruct (Forall2_lookup_r _ _ _ _ _ Hbs Hi) as (r & _ & s & e & _ & _ & ->).
  simpl. apply colore_in_legend.
Qed.

Lemma generate_gantt_bars_witness :
  ∃ c w',
    run (generate_gantt host_esempio "gantt_Marco.png" (Some "Marco")) esempio
    = (Ok (Some "gantt_Marco.png"), w')
    ∧ fs w' !! "gantt_Marco.png" = Some c
    ∧ title c = "Diagramma di Gantt - Marco"
    ∧ bar_y <$> bars c = [VStr "Sviluppo frontend"; VStr "Testing"]
    ∧ bar_width <$> bars c = [14; 11]
    ∧ bar_color <$> bars c = ["lightblue"; "lightgrey"].
Proof.
  destruct (run (generate_gantt host_esempio "gantt_Marco.png" (Some "Marco")) esempio)
    as [res w'] eqn:Hrun.
  assert (Hres : res = Ok (Some "gantt_Marco.png")).
  { apply (f_equal fst) in Hrun. vm_compute in Hrun. by subst res. }
  subst res.
  destruct (generate_gantt_bars host_esempio esempio w' "gantt_Marco.png" (Some "Marco") Hrun)
    as (c & sorted & Hc & _ & _ & _ & _ & Htitle & _).
  exists c, w'. split; [reflexivity|]. split; [exact Hc|]. split; [exact Htitle|].
  assert (Hfs : fs (run (generate_gantt host_esempio "gantt_Marco.png" (Some "Marco"))
                      esempio).2 !! "gantt_Marco.png" = Some c) by by rewrite Hrun.
  vm_compute in Hfs. injection Hfs as <-. repeat split.
Defined.

Lemma bar_for_unique (r : Row) (b1 b2 : Bar) : bar_for r b1 → bar_for r b2 → b1 = b2.
Proof. intros (s & e & Hs & He & ->) (s' & e' & Hs' & He' & ->). congruence. Qed.

Lemma text_for_unique (r : Row) (t1 t2 : Text) : text_for r t1 → text_for r t2 → t1 = t2.
Proof. intros (e & He & ->) (e' & He' & ->). congruence. Qed.

(** X14: it makes no difference to the picture who filters. Rendering with
    a non-empty [filter_person] ends as rendering, with no filter, a table
    that holds just what [get_activities_by_person] returns for that person:
    the same result, the same output, and on success a chart with the same
    bars, labels, axis range and legend; only the title differs, by the
    person's name. *)
Theorem generate_gantt_filter_by_caller (host : Host) (w : World) (output_file p : string)
    (rows : DataFrame) :
  p ≠ "" →
  (run (get_activities_by_person (VStr p)) w).1 = Ok rows →
  let inside := run (generate_gantt host output_file (Some p)) w in
  let outside := run (generate_gantt host output_file None) (mkWorld rows (stdout w) (fs w)) in
  inside.1 = outside.1
  ∧ stdout inside.2 = stdout outside.2
  ∧ (inside.1 ≠ Ok (Some output_file) → fs inside.2 = fs outside.2)
  ∧ (inside.1 = Ok (Some output_file) →
     ∃ c_in c_out,
       fs inside.2 = <[output_file := c_in]> (fs w)
       ∧ fs outside.2 = <[output_file := c_out]> (fs w)
       ∧ bars c_in = bars c_out ∧ texts c_in = texts c_out
       ∧ xlim c_in = xlim c_out ∧ legend c_in = legend c_out
       ∧ title c_out = "Diagramma di Gantt"
       ∧ title c_in = "Diagramma di Gantt - " +:+ p).
Proof.
  intros Hp [= <-] inside outside. subst inside outside.
  set (rows := filter (λ r, Persona_Riferimento r = VStr p) (df w)).
  set (w_p := mkWorld rows (stdout w) (fs w)).
  assert (Hin : filter_by_person (Some p) (df w) = (rows, " - " +:+ p)).
  { unfold filter_by_person. by rewrite decide_False. }
  assert (Hout : filter_by_person None (df w_p) = (rows, "")) by done.
  rewrite !generate_gantt_run, Hin, Hout. simpl.
  rewrite (layout_any_world host rows w_p w).
  destruct (decide (rows = [])) as [Hnil|Hne]; [done|].
  destruct (layout host rows w).1 as [[[bs ts] lims]|]; [|done].
  destruct (savefig_ok host output_file bs ts); [|done]. simpl.
  split; [done|]. split; [done|]. split; [done|]. intros _.
  eexists _, _. split; [done|]. split; [done|]. done.
Qed.

Lemma generate_gantt_filter_by_caller_witness :
  (run (generate_gantt host_esempio "gantt_Marco.png" (Some "Marco")) esempio).1
  = (run (generate_gantt host_esempio "gantt_Marco.png" None)
       (mkWorld (filter (λ r, Persona_Riferimento r = VStr "Marco") (df esempio))
          (stdout esempio) (fs esempio))).1.
Proof.
  apply (generate_gantt_filter_by_caller host_esempio esempio "gantt_Marco.png" "Marco").
  - discriminate.
  - reflexivity.
Defined.

(** * The page *)

Lemma entered_by_form_ints (d : DataFrame) :
  Forall entered_by_form d → ∃ ids, ints_of (id_column d) = Some ids.
Proof.
  induction 1 as [|r d (n & ? & ? & ? & ? & ? & -> & _) _ [ids IH]]; [by exists []|].
  exists (n :: ids). unfold id_column in *. rewrite fmap_cons. simpl. by rewrite IH.
Qed.

Lemma entered_by_form_dates (d : DataFrame) : Forall entered_by_form d → Forall has_dates d.
Proof.
  intros H. eapply Forall_impl; [exact H|].
  intros r (? & ? & ? & ? & gi & gf & -> & _). split; by eexists.
Qed.

Lemma to_datetime_date_le (a b : Z) : to_datetime_date a ≤ to_datetime_date b ↔ a ≤ b.
Proof. unfold to_datetime_date, ns_per_day. lia. Qed.

(** X15: the add form keeps the table well formed. Starting from the empty
    table, every record is as the form makes it: integer id, non-empty name
    and person, end on a later day than the start. With a name, a person and
    an end date after the start date the form stores exactly that record,
    under an id that no record had, and reports success: [add_activity] does
    not raise. With the name or the person empty, or the end date not after
    the start date, it reports the error and changes nothing. *)
Theorem add_activity_form_validates (to_datetime : string → option Z) :
  Forall entered_by_form (df GanttPrototype)
  ∧ ∀ (w : World) (nome : string) (data_inizio data_fine : Z) (persona stato : string),
      Forall entered_by_form (df w) →
      let call := run (add_activity_form to_datetime nome data_inizio data_fine persona stato) w in
      Forall entered_by_form (df call.2)
      ∧ (nome ≠ "" → persona ≠ "" → data_inizio < data_fine →
         call.1 = Ok (SuccessAggiunta nome)
         ∧ stdout call.2 = stdout w ∧ fs call.2 = fs w
         ∧ ∃ n, (VInt n ∉ id_column (df w))
              ∧ df call.2 = df w ++ [mkRow (VInt n) (VStr nome)
                                       (VTimestamp (to_datetime_date data_inizio))
                                       (VTimestamp (to_datetime_date data_fine))
                                       (VStr persona) (VStr stato)])
      ∧ (nome = "" ∨ persona = "" → call = (Ok ErrorObbligatori, w))
      ∧ (nome ≠ "" → persona ≠ "" → data_fine ≤ data_inizio → call = (Ok ErrorDataFine, w)).
Proof.
  split; [constructor|]. intros w nome gi gf persona stato Hinv call. subst call.
  unfold add_activity_form, run.
  destruct (decide (nome = "")) as [->|Hnome].
  { simpl. split; [done|]. split; [done|]. split; [done|]. done. }
  rewrite (bool_decide_eq_true_2 (nome ≠ "")) by done.
  destruct (decide (persona = "")) as [->|Hpers].
  { simpl. split; [done|]. split; [done|]. split; [done|]. done. }
  rewrite (bool_decide_eq_true_2 (persona ≠ "")) by done. simpl.
  destruct (to_datetime_date gf <=? to_datetime_date gi) eqn:Hle.
  { apply Z.leb_le in Hle. apply (proj1 (to_datetime_date_le gf gi)) in Hle.
    split; [done|]. split; [intros; lia|]. split; [by intros [|]|]. done. }
  apply Z.leb_gt in Hle.
  assert (Hlt : gi < gf).
  { destruct (decide (gi < gf)); [done|].
    assert (gf ≤ gi) as Hc by lia. apply (proj2 (to_datetime_date_le gf gi)) in Hc. lia. }
  destruct (entered_by_form_ints _ Hinv) as [ids Hids].
  unfold mbind, Py_bind.
  pose proof (add_activity_ok to_datetime w (VStr nome) (VTimestamp (to_datetime_date gi))
                (VTimestamp (to_datetime_date gf)) (VStr persona) (VStr stato)
                (VTimestamp (to_datetime_date gi)) (VTimestamp (to_datetime_date gf)) ids
                eq_refl eq_refl Hids) as Hadd.
  unfold run in Hadd. rewrite Hadd. simpl.
  split.
  { apply Forall_app. split; [done|]. constructor; [|constructor].
    exists (next_id ids), nome, persona, stato, gi, gf. done. }
  split.
  { intros _ _ _. split; [done|]. split; [done|]. split; [done|].
    exists (next_id ids). split; [by apply next_id_fresh|done]. }
  split; [by intros [|]|]. intros; lia.
Qed.

Lemma add_activity_form_validates_witness :
  Forall entered_by_form (df sessione).
Proof.
  destruct (add_activity_form_validates parse_iso_date) as [Hinit Hstep].
  pose proof (Hstep GanttPrototype "Sviluppo frontend"
                (days_from_civil 2024 5 1) (days_from_civil 2024 5 15) "Marco Rossi" "In corso"
                Hinit) as [H1 _].
  exact (proj1 (Hstep _ "Sviluppo backend" (days_from_civil 2024 5 10)
                  (days_from_civil 2024 5 30) "Laura" "Non iniziato" H1)).
Defined.

Lemma bar_for_entered (r : Row) (b : Bar) :
  entered_by_form r → bar_for r b → 1 ≤ bar_width b.
Proof.
  intros (n & nome & persona & stato & gi & gf & -> & _ & _ & Hlt)
         (s & e & [= <-] & [= <-] & ->). simpl.
  unfold to_datetime_date. rewrite <- Z.mul_sub_distr_r.
  rewrite Z.div_mul by (unfold ns_per_day; lia). lia.
Qed.

(** Dates that the date widget hands over are far inside the range of
    Timestamps: the span between two of them, the day after and the two
    ends of the axis can all be computed. *)
Lemma date_input_range_in_bounds (giorno_inizio giorno_fine : Z) :
  date_input_range giorno_inizio → date_input_range giorno_fine →
  in_bounds (to_datetime_date giorno_fine - to_datetime_date giorno_inizio) = true
  ∧ in_bounds (to_datetime_date giorno_fine + timedelta_days 1) = true
  ∧ in_bounds (to_datetime_date giorno_inizio - timedelta_days 3) = true
  ∧ in_bounds (to_datetime_date giorno_fine + timedelta_days 15) = true.
Proof.
  unfold date_input_range.
  change (days_from_civil 1900 1 1) with (-25567).
  change (days_from_civil 2100 12 31) with 47846.
  intros Hi Hf.
  unfold in_bounds, Timestamp_min, Timestamp_max, to_datetime_date, timedelta_days, ns_per_day.
  change (2 ^ 63) with 9223372036854775808.
  rewrite !andb_true_iff, !Z.leb_le. lia.
Qed.

Lemma dates_in_range_drawable (host : Host) (rows : DataFrame) :
  Forall (λ r, barh_ok host (Nome_Attività r) = true) rows →
  Forall dates_in_range rows →
  Forall (drawable host) rows ∧ axis_in_bounds rows.
Proof.
  intros Hnames Hdates. split; [|split].
  - apply Forall_forall. intros r Hr. rewrite Forall_forall in Hnames, Hdates.
    destruct (Hdates r Hr) as (gi & gf & Hs & He & Hi & Hf).
    destruct (date_input_range_in_bounds gi gf Hi Hf) as (H1 & H2 & _).
    exists (to_datetime_date gi), (to_datetime_date gf).
    repeat split; [done..|]. by apply Hnames.
  - intros s (r & Hs & Hr)%list_elem_of_fmap. rewrite Forall_forall in Hdates.
    destruct (Hdates r Hr) as (gi & gf & Hs' & He & Hi & Hf).
    destruct (date_input_range_in_bounds gi gf Hi Hf) as (_ & _ & H3 & _).
    rewrite Hs' in Hs. by injection Hs as ->.
  - intros e (r & He & Hr)%list_elem_of_fmap. rewrite Forall_forall in Hdates.
    destruct (Hdates r Hr) as (gi & gf & Hs & He' & Hi & Hf).
    destruct (date_input_range_in_bounds gi gf Hi Hf) as (_ & _ & _ & H4).
    rewrite He' in He. by injection He as ->.
Qed.

(** X16: on a non-empty table filled through the add form, the page has
    something to draw for every entry of the filter menu. For "Tutte" and
    for every person that [get_unique_persons] offers, the set to render is
    not empty, and [update_gantt_chart] ends in one of two ways: it raises
    and leaves everything as it was, or it returns the path of the entry, at
    which [generate_gantt] has just written the chart; the table is
    untouched, the chart has bars, and every bar is at least one day wide.
    It returns the path where the host makes the directory, [ax.barh] takes
    the names of the rendered rows, their dates are in the range of the date
    widget, and [plt.savefig] takes the figure at that path. *)
Theorem update_gantt_chart_writes (host : Host) (w : World) (selected_person : string) :
  Forall entered_by_form (df w) →
  df w ≠ [] →
  (selected_person = "Tutte"
   ∨ ∃ ps, (run get_unique_persons w).1 = Ok ps ∧ VStr selected_person ∈ ps) →
  let chart_path :=
    if decide (selected_person = "Tutte") then "gantt_charts/gantt_completo.png"
    else "gantt_charts/gantt_" +:+ replace_spaces selected_person +:+ ".png" in
  let rendered :=
    if decide (selected_person = "Tutte") then df w
    else filter (λ r, Persona_Riferimento r = VStr selected_person) (df w) in
  let call := run (update_gantt_chart host (select_filter selected_person)) w in
  rendered ≠ []
  ∧ (call = (Raise, w)
     ∨ ∃ c, call = (Ok chart_path,
                    mkWorld (df w) (stdout w ++ [GanttSalvato chart_path])
                      (<[chart_path := c]> (fs w)))
          ∧ bars c ≠ [] ∧ ∀ b, b ∈ bars c → 1 ≤ bar_width b)
  ∧ (makedirs_ok host "gantt_charts" = true →
     Forall (λ r, barh_ok host (Nome_Attività r) = true) rendered →
     Forall dates_in_range rendered →
     savefig_takes host chart_path rendered →
     call.1 = Ok chart_path).
Proof.
  intros Hinv Hne Hsel chart_path rendered call.
  set (fp := select_filter selected_person).
  assert (Hfp : (filter_by_person fp (df w)).1 = rendered ∧ rendered ≠ []
                ∧ call = if makedirs_ok host "gantt_charts" then
                           match run (generate_gantt host chart_path fp) w with
                           | (Ok _, w') => (Ok chart_path, w')
                           | (Raise, w') => (Raise, w')
                           end
                         else (Raise, w)).
  { subst call fp chart_path rendered. unfold select_filter, update_gantt_chart.
    destruct (decide (selected_person = "Tutte")) as [->|Hother].
    { split; [done|]. split; [done|]. py_unfold.
      destruct (makedirs_ok host "gantt_charts"); [|done].
      by destruct (generate_gantt host _ None w) as [[?|] ?]. }
    destruct Hsel as [->|(ps & [= <-] & Hin)]; [done|].
    unfold series_unique in Hin.
    apply unique_from_elem in Hin as [(r & Hpers & Hr)%list_elem_of_fmap _].
    assert (Hnonempty : selected_person ≠ "").
    { rewrite Forall_forall in Hinv.
      destruct (Hinv r Hr) as (? & ? & persona & ? & ? & ? & -> & _ & Hp & _).
      simpl in Hpers. by simplify_eq. }
    split; [unfold filter_by_person; by rewrite decide_False|].
    split; [intros Hnil; by apply (filter_nil_not_elem_of _ _ r Hnil)|].
    rewrite decide_False by done. py_unfold.
    destruct (makedirs_ok host "gantt_charts"); [|done].
    by destruct (generate_gantt host _ (Some selected_person) w) as [[?|] ?]. }
  destruct Hfp as (Hrows & Hrendered & Hcall). split; [done|].
  assert (Hsub : ∀ r, r ∈ rendered → r ∈ df w).
  { intros r. subst rendered. case_decide; [done|]. by intros [_ ?]%list_elem_of_filter. }
  rewrite Hcall, generate_gantt_run, Hrows. clear Hcall.
  rewrite decide_False by done.
  destruct (makedirs_ok host "gantt_charts"); [|split; [by left|done]].
  destruct (layout_cases host rendered w)
    as [(bs & ts & first & last & -> & _ & Hall & Hbs & Hts & _)|[-> Hwhy]]; simpl.
  - split.
    + destruct (savefig_ok host chart_path bs ts); [|by left].
      right. eexists. split; [reflexivity|]. simpl. split.
      * intros Hnil. rewrite Hnil in Hbs. apply Forall2_nil_inv_r in Hbs.
        pose proof (sort_perm rendered) as Hp. rewrite Hbs in Hp.
        by apply Permutation_nil_l in Hp.
      * intros b Hb. apply list_elem_of_lookup in Hb as [i Hi].
        destruct (Forall2_lookup_r _ _ _ _ _ Hbs Hi)
          as (r & Hr%list_elem_of_lookup_2 & Hbar).
        eapply bar_for_entered; [|exact Hbar].
        rewrite sort_perm in Hr. rewrite Forall_forall in Hinv. by apply Hinv, Hsub.
    + intros _ _ _ Htakes.
      by rewrite (Htakes (foldr insert_row [] rendered) bs ts (sort_perm rendered) Hbs Hts).
  - split; [by left|]. intros _ Hnames Hdates _.
    destruct (dates_in_range_drawable host rendered Hnames Hdates) as [Hdraw Haxis].
    destruct Hwhy as [?|[?|?]]; done.
Qed.

(** In the session of two activities the entry of Marco Rossi gives the
    chart at gantt_charts/gantt_Marco_Rossi.png. *)
Lemma update_gantt_chart_writes_witness :
  (run (update_gantt_chart host_esempio (select_filter "Marco Rossi")) sessione).1
  = Ok "gantt_charts/gantt_Marco_Rossi.png".
Proof.
  destruct (update_gantt_chart_writes host_esempio sessione "Marco Rossi")
    as (_ & _ & Hreturns).
  - repeat constructor;
      [exists 1, "Sviluppo frontend", "Marco Rossi", "In corso",
         (days_from_civil 2024 5 1), (days_from_civil 2024 5 15)
      |exists 2, "Sviluppo backend", "Laura", "Non iniziato",
         (days_from_civil 2024 5 10), (days_from_civil 2024 5 30)];
      (split; [reflexivity|]); (split; [discriminate|]); (split; [discriminate|]); reflexivity.
  - discriminate.
  - right. eexists. split; [reflexivity|]. left.
  - apply Hreturns.
    + reflexivity.
    + repeat constructor.
    + repeat constructor.
      exists (days_from_civil 2024 5 1), (days_from_civil 2024 5 15).
      split; [reflexivity|]. split; [reflexivity|]. split; split; discriminate.
    + intros sorted bs ts _ _ _. reflexivity.
Defined.

(** X17: the delete form offers the ids of the table; for each of them it
    reports success, the id is gone from the table, and the records left are
    still as the add form made them. *)
Theorem delete_activity_form_succeeds (w : World) (id_to_delete : value) :
  Forall entered_by_form (df w) →
  id_to_delete ∈ id_column (df w) →
  ∃ w', run (delete_activity_form id_to_delete) w = (Ok (SuccessEliminata id_to_delete), w')
    ∧ (id_to_delete ∉ id_column (df w'))
    ∧ (length (df w') < length (df w))%nat
    ∧ Forall entered_by_form (df w')
    ∧ stdout w' = stdout w ∧ fs w' = fs w.
Proof.
  intros Hinv Hid. eexists. split.
  { unfold delete_activity_form, run. unfold mbind, Py_bind.
    pose proof (delete_activity_found w id_to_delete Hid) as Hdel.
    unfold run in Hdel. by rewrite Hdel. }
  simpl. split.
  { intros (r & Hr & [Hne _]%list_elem_of_filter)%list_elem_of_fmap. done. }
  split.
  { apply list_elem_of_fmap in Hid as (r & -> & Hr).
    apply (length_filter_lt _ _ r); [done|]. intros H. by apply H. }
  split; [|done]. rewrite Forall_forall in Hinv. apply Forall_forall.
  intros r [_ Hr]%list_elem_of_filter. by apply Hinv.
Qed.

Lemma delete_activity_form_succeeds_witness :
  ∃ w', run (delete_activity_form (VInt 1)) sessione = (Ok (SuccessEliminata (VInt 1)), w')
      ∧ id_column (df w') = [VInt 2].
Proof.
  destruct (delete_activity_form_succeeds sessione (VInt 1)) as (w' & Hrun & _).
  - repeat constructor;
      [exists 1, "Sviluppo frontend", "Marco Rossi", "In corso",
         (days_from_civil 2024 5 1), (days_from_civil 2024 5 15)
      |exists 2, "Sviluppo backend", "Laura", "Non iniziato",
         (days_from_civil 2024 5 10), (days_from_civil 2024 5 30)];
      (split; [reflexivity|]); (split; [discriminate|]); (split; [discriminate|]); reflexivity.
  - left.
  - exists w'. split; [exact Hrun|]. vm_compute in Hrun. injection Hrun as <-. reflexivity.
Defined.

(** * Repeating and reordering calls *)

Lemma next_id_snoc (ids : list Z) : next_id (ids ++ [next_id ids]) = next_id ids + 1.
Proof.
  set (m := next_id ids).
  destruct (ids ++ [m]) as [|n ns] eqn:Hl; [by destruct ids|]. simpl.
  pose proof (Zmax_list_in n ns) as Hin. pose proof (Zmax_list_ge n ns m) as Hge.
  rewrite <- Hl in Hin, Hge.
  assert (m ≤ Zmax_list n ns) by (apply Hge, elem_of_app; right; left).
  apply elem_of_app in Hin as [Hin|Hin%list_elem_of_singleton]; [|lia].
  apply next_id_above in Hin. fold m in Hin. lia.
Qed.

(** X18: two additions in a row get consecutive ids: when [add_activity]
    has returned the integer [n], the next [add_activity] returns [n + 1],
    whatever the two records hold. *)
Theorem add_activity_consecutive_ids (to_datetime : string → option Z) (w w1 : World)
    (nome data_inizio data_fine persona stato : value)
    (nome' data_inizio' data_fine' persona' stato' inizio' fine' : value) (n : Z) :
  run (add_activity to_datetime nome data_inizio data_fine persona stato) w = (Ok (VInt n), w1) →
  to_datetime_if_str to_datetime data_inizio' = Some inizio' →
  to_datetime_if_str to_datetime data_fine' = Some fine' →
  run (add_activity to_datetime nome' data_inizio' data_fine' persona' stato') w1
  = (Ok (VInt (n + 1)),
     mkWorld (df w1 ++ [mkRow (VInt (n + 1)) nome' inizio' fine' persona' stato'])
       (stdout w1) (fs w1)).
Proof.
  rewrite add_activity_outcome.
  destruct (to_datetime_if_str to_datetime data_inizio) as [inizio|]; [|done].
  destruct (to_datetime_if_str to_datetime data_fine) as [fine|]; [|done].
  destruct (ints_of (id_column (df w))) as [ids|] eqn:Hids; [|done].
  intros [= <- <-] Hi Hf.
  rewrite <- next_id_snoc. apply add_activity_ok; [done..|]. simpl.
  apply ints_of_Some. unfold id_column. rewrite !fmap_app. simpl.
  apply ints_of_Some in Hids. unfold id_column in Hids. by rewrite Hids.
Qed.

Lemma add_activity_consecutive_ids_witness :
  (run (add_activity parse_iso_date (VStr "Rilascio") (VStr "2024-06-21") (VStr "2024-06-22")
          (VStr "Giulia") stato_default)
     (exec (add_activity parse_iso_date (VStr "Collaudo") (VStr "2024-06-16")
              (VStr "2024-06-20") (VStr "Laura") stato_default) esempio)).1
  = Ok (VInt 7).
Proof.
  erewrite (add_activity_consecutive_ids parse_iso_date esempio _
              (VStr "Collaudo") (VStr "2024-06-16") (VStr "2024-06-20") (VStr "Laura")
              stato_default (VStr "Rilascio") (VStr "2024-06-21") (VStr "2024-06-22")
              (VStr "Giulia") stato_default _ _ 6); reflexivity.
Defined.

(** X19: the order of two deletions does not matter for the table: deleting
    [a] and then [b] leaves the same records as deleting [b] and then [a]. *)
Theorem delete_activity_commutes (w : World) (a b : value) :
  df (exec (delete_activity a;; delete_activity b) w)
  = df (exec (delete_activity b;; delete_activity a) w).
Proof.
  assert (Hdf : ∀ w id, df (exec (delete_activity id) w) = filter (λ r, ID r ≠ id) (df w)).
  { intros w0 id. destruct (decide (id ∈ id_column (df w0))) as [Hin|Hout].
    - by rewrite exec_run, (delete_activity_found w0 id Hin).
    - rewrite (filter_id_absent _ _ Hout), exec_run. unfold run, delete_activity.
      py_unfold. simpl. by rewrite decide_True. }
  assert (Hseq : ∀ x y, df (exec (delete_activity x;; delete_activity y) w)
                        = filter (λ r, ID r ≠ y) (filter (λ r, ID r ≠ x) (df w))).
  { intros x y. rewrite <- Hdf, <- Hdf. unfold exec, mbind, Py_bind.
    assert (Hok : ∃ r, (delete_activity x w).1 = Ok r).
    { unfold delete_activity. py_unfold. simpl. case_decide; by eexists. }
    destruct Hok as [r Hr]. destruct (delete_activity x w) as [res w1]. simpl in *.
    by subst res. }
  rewrite !Hseq, !list_filter_filter. apply list_filter_iff. tauto.
Qed.

(** X20: rendering again overwrites the file with the same chart: after two
    calls of [generate_gantt] with the same arguments the files are what
    they were after the first, the second call returns what the first
    returned, and the table is untouched. *)
Theorem generate_gantt_again (host : Host) (w : World) (output_file : string)
    (filter_person : option string) :
  let once := run (generate_gantt host output_file filter_person) w in
  let twice := run (generate_gantt host output_file filter_person) once.2 in
  twice.1 = once.1 ∧ fs twice.2 = fs once.2 ∧ df twice.2 = df w.
Proof.
  intros once twice. subst once twice.
  rewrite (generate_gantt_run host w).
  destruct (decide ((filter_by_person filter_person (df w)).1 = [])) as [Hnil|Hne].
  { rewrite generate_gantt_run. simpl. by rewrite decide_True. }
  destruct (layout host _ w).1 as [[[bs ts] lims]|] eqn:Hl.
  2:{ rewrite generate_gantt_run. simpl. rewrite decide_False by done. by rewrite Hl. }
  destruct (savefig_ok host output_file bs ts) eqn:Hsave.
  2:{ rewrite generate_gantt_run. simpl. rewrite decide_False by done.
      by rewrite Hl, Hsave. }
  rewrite generate_gantt_run. simpl. rewrite decide_False by done.
  match goal with
  | |- context [layout host ?rows ?w1] => rewrite (layout_any_world host rows w1 w)
  end.
  rewrite Hl, Hsave. simpl. by rewrite insert_insert_eq.
Qed.
